(** * The random-number back-ends, their capability probes and the range
      mapper, as a shallow embedding of class RandomNumberGenerator of
      random_number_2025.py, followed by the generators of
      archive/random_number_2024.py that the statements refer to.

    Python integers are unbounded, so they are [Z].  Every call that leaves
    the interpreter (platform.system, os.urandom, the advapi32 and kernel32
    entry points, the RDRAND stub) reads its answer from a [Host] record and
    appends an [Event] to the trace carried by the state, so that "was it
    called, how often, in which order" are statements about that trace.
    Python exceptions are the [Raise] outcome; the state (and so the trace)
    survives a raise, as it does in the interpreter. *)

From Stdlib Require Import ZArith List String Ascii Bool Lia.
From Stdlib Require Import Strings.Byte DecimalString.
Import ListNotations.
Local Open Scope string_scope.
Local Open Scope list_scope.
Local Open Scope Z_scope.

(** ** Exceptions and outcomes *)

Inductive exn : Type :=
| ValueError (msg : string)
| OSError (msg : string)
| RuntimeError (msg : string)
| ZeroDivisionError (msg : string)
| NotImplementedError (msg : string)
| AttributeError (msg : string)
| StructError (msg : string)
| UnicodeEncodeError (msg : string).

(** [str(e)] *)
Definition exn_str (e : exn) : string :=
  match e with
  | ValueError msg | OSError msg | RuntimeError msg | ZeroDivisionError msg
  | NotImplementedError msg | AttributeError msg | StructError msg
  | UnicodeEncodeError msg => msg
  end.

(** What a method hands back when it may fall off its end. *)
Inductive pyval : Type :=
| PyInt (z : Z)
| PyNone.

Inductive Outcome (A : Type) : Type :=
| Return (a : A)
| Raise (e : exn).
Arguments Return {A} a.
Arguments Raise {A} e.

(** ** Internals: [_check_range] and [_map] (lines 105-112) *)

(** [if lo >= hi: raise ValueError("min must be < max")] *)
Definition _check_range (lo hi : Z) : Outcome unit :=
  if lo >=? hi then Raise (ValueError "min must be < max") else Return tt.

(** Python's [%] on ints: floor remainder (sign of the divisor), and
    ZeroDivisionError on a zero divisor.  [Z.modulo] has the same sign
    convention; only the zero divisor has to be written out. *)
Definition py_mod (a b : Z) : Outcome Z :=
  if b =? 0 then Raise (ZeroDivisionError "integer modulo by zero")
  else Return (a mod b).

(** [return lo + (v % (hi - lo + 1))] *)
Definition _map (v lo hi : Z) : Outcome Z :=
  match py_mod v (hi - lo + 1) with
  | Return r => Return (lo + r)
  | Raise e => Raise e
  end.

(** ** The host and the interpreter state *)

(** What the machine answers.  Nothing here changes during a call: the
    fields are the operating system's and the CPU's responses, indexed by
    attempt where an answer may differ from one call to the next. *)
Record Host : Type := {
  (** [platform.system()] *)
  platform_system : string;
  (** [sys.byteorder == "little"]: the native order of struct's "Q". *)
  byteorder_little : bool;
  (** [kernel32.IsProcessorFeaturePresent(f)], a BOOL seen as an int. *)
  IsProcessorFeaturePresent : Z -> Z;
  (** [os.urandom]: the exception it raises when the kernel has no source,
      otherwise the stream its bytes are taken from. *)
  urandom_error : option exn;
  urandom_byte : nat -> byte;
  (** [advapi32.CryptAcquireContextW]: its BOOL and the handle it stores. *)
  CryptAcquireContextW_ret : Z;
  CryptAcquireContextW_handle : Z;
  (** [advapi32.CryptGenRandom]: its BOOL and the bytes it writes. *)
  CryptGenRandom_ret : Z;
  CryptGenRandom_byte : nat -> byte;
  (** [kernel32.GetLastError()] *)
  GetLastError_ret : Z;
  (** [kernel32.VirtualAlloc(...)]: the address, 0 for NULL. *)
  VirtualAlloc_ret : Z;
  (** The CPU at the n-th execution of the RDRAND stub (n from 0): the
      carry flag and the register the stub stores through its argument. *)
  rdrand_hw : nat -> bool * Z;
  (** The 14-byte stub of the archived AMD generator at its n-th execution:
      its [c_int] result and, if it stores through its pointer argument,
      the value stored. *)
  amd_stub : nat -> Z * option Z
}.

Inductive Event : Type :=
| Ev_platform_system
| Ev_IsProcessorFeaturePresent (feature : Z)
| Ev_urandom (n : nat)
| Ev_CryptAcquireContextW (dwProvType dwFlags : Z)
| Ev_CryptGenRandom (hprov len : Z)
| Ev_CryptReleaseContext (hprov flags : Z)
| Ev_GetLastError
| Ev_VirtualAlloc (size flAllocationType flProtect : Z)
| Ev_memmove (addr : Z) (code : list byte)
| Ev_rdrand64_step (addr : Z)
| Ev_amd_stub (addr retry_count : Z)
| Ev_print (text : string)
| Ev_logger_error (text : string).

(** [trace]: the foreign calls made so far, oldest first.
    [result_cell]: the [c_uint64] object the RDRAND stub writes through
    [byref(result)] and the loop reads back as [result.value]. *)
Record State : Type := {
  trace : list Event;
  result_cell : Z
}.

Definition initial_state : State := {| trace := []; result_cell := 0 |}.

(** ** A state-and-exception monad *)

Definition M (A : Type) : Type := Host -> State -> Outcome A * State.

Definition ret {A} (a : A) : M A := fun _ s => (Return a, s).
Definition raise {A} (e : exn) : M A := fun _ s => (Raise e, s).
Definition bind {A B} (m : M A) (k : A -> M B) : M B :=
  fun h s =>
    match m h s with
    | (Return a, s') => k a h s'
    | (Raise e, s') => (Raise e, s')
    end.
Definition lift {A} (o : Outcome A) : M A := fun _ s => (o, s).
Definition ask {A} (f : Host -> A) : M A := fun h s => (Return (f h), s).
Definition emit (e : Event) : M unit :=
  fun _ s => (Return tt, {| trace := trace s ++ [e]; result_cell := result_cell s |}).

(** [try: body finally: fin].  The finally block runs on both exits; the
    body's outcome is kept unless the finally block itself raises. *)
Definition try_finally {A} (body : M A) (fin : M unit) : M A :=
  fun h s =>
    match body h s with
    | (o, s') =>
        match fin h s' with
        | (Return _, s'') => (o, s'')
        | (Raise e, s'') => (Raise e, s'')
        end
    end.

(** [try: body except Exception as e: handler(e)].  Every exception of
    the model derives from Exception, so every raise is caught. *)
Definition try_except {A} (body : M A) (handler : exn -> M A) : M A :=
  fun h s =>
    match body h s with
    | (Return a, s') => (Return a, s')
    | (Raise e, s') => handler e h s'
    end.

(** [for _ in range(n): body], where the body may [return]: [Some a] is a
    return out of the loop, [None] falls through to the next statement. *)
Fixpoint for_range {A} (n : nat) (body : M (option A)) : M (option A) :=
  match n with
  | O => ret None
  | S n' =>
      bind body (fun r =>
        match r with
        | Some a => ret (Some a)
        | None => for_range n' body
        end)
  end.

Declare Scope py_scope.
Delimit Scope py_scope with py.
Notation "x <- m ;; k" := (bind m (fun x => k))
  (at level 61, m at next level, right associativity) : py_scope.
Notation "m ;; k" := (bind m (fun _ => k))
  (at level 61, right associativity) : py_scope.
Local Open Scope py_scope.

Definition run {A} (m : M A) (h : Host) : Outcome A * State := m h initial_state.
Definition outcome_of {A} (m : M A) (h : Host) : Outcome A := fst (run m h).
Definition trace_of {A} (m : M A) (h : Host) : list Event := trace (snd (run m h)).

(** ** Library calls *)

(** Python's [format(n, "08X")]: upper-case hexadecimal, zero-filled to
    eight columns, the sign (if any) taking the first one. *)
Definition hex_digit (d : Z) : ascii :=
  match d with
  | 0 => "0" | 1 => "1" | 2 => "2" | 3 => "3" | 4 => "4" | 5 => "5"
  | 6 => "6" | 7 => "7" | 8 => "8" | 9 => "9" | 10 => "A" | 11 => "B"
  | 12 => "C" | 13 => "D" | 14 => "E" | _ => "F"
  end%char.

Fixpoint hex_digits (fuel : nat) (n : Z) (acc : string) : string :=
  match fuel with
  | O => acc
  | S fuel' =>
      let acc' := String (hex_digit (n mod 16)) acc in
      if n / 16 =? 0 then acc' else hex_digits fuel' (n / 16) acc'
  end.

Definition hex_upper (n : Z) : string :=
  hex_digits (S (Z.to_nat (Z.log2 n))) n "".

Fixpoint zeros (k : nat) : string :=
  match k with
  | O => ""
  | S k' => String "0"%char (zeros k')
  end.

Definition zfill (width : nat) (s : string) : string :=
  (zeros (width - String.length s) ++ s)%string.

Definition format_08X (n : Z) : string :=
  if n <? 0 then ("-" ++ zfill 7 (hex_upper (- n)))%string
  else zfill 8 (hex_upper n).

(** [struct.unpack("Q", bs)[0]]: eight bytes in native order. *)
Fixpoint le_bytes_to_Z (bs : list byte) : Z :=
  match bs with
  | [] => 0
  | b :: rest => Z.of_N (Byte.to_N b) + 256 * le_bytes_to_Z rest
  end.

Definition struct_unpack_Q (bs : list byte) : M Z :=
  fun h s =>
    if (List.length bs =? 8)%nat then
      (Return (le_bytes_to_Z (if byteorder_little h then bs else rev bs)), s)
    else (Raise (StructError "unpack requires a buffer of 8 bytes"), s).

Definition py_platform_system : M string :=
  emit Ev_platform_system ;; ask platform_system.

Definition kernel32_IsProcessorFeaturePresent (feature : Z) : M Z :=
  emit (Ev_IsProcessorFeaturePresent feature) ;;
  ask (fun h => IsProcessorFeaturePresent h feature).

Definition os_urandom (n : nat) : M (list byte) :=
  emit (Ev_urandom n) ;;
  err <- ask urandom_error ;;
  match err with
  | Some e => raise e
  | None => ask (fun h => map (urandom_byte h) (seq 0 n))
  end.

(** Returns the BOOL and the value left in [hprov]. *)
Definition advapi32_CryptAcquireContextW (dwProvType dwFlags : Z) : M (Z * Z) :=
  emit (Ev_CryptAcquireContextW dwProvType dwFlags) ;;
  ask (fun h => (CryptAcquireContextW_ret h, CryptAcquireContextW_handle h)).

(** Returns the BOOL and the buffer after the call; the buffer starts
    zeroed ([(c_ubyte * 8)()]) and is filled only on success. *)
Definition advapi32_CryptGenRandom (hprov : Z) (len : nat) : M (Z * list byte) :=
  emit (Ev_CryptGenRandom hprov (Z.of_nat len)) ;;
  ask (fun h =>
         (CryptGenRandom_ret h,
          if CryptGenRandom_ret h =? 0 then repeat x00 len
          else map (CryptGenRandom_byte h) (seq 0 len))).

Definition advapi32_CryptReleaseContext (hprov flags : Z) : M unit :=
  emit (Ev_CryptReleaseContext hprov flags).

Definition kernel32_GetLastError : M Z :=
  emit Ev_GetLastError ;; ask GetLastError_ret.

(** The pointer the kernel hands back.  What Python holds afterwards
    depends on the restype in force at the call: the archive sets
    [c_void_p] (the pointer itself, None for NULL); random_number_2025.py
    leaves ctypes' default [c_int], see [c_int] below. *)
Definition kernel32_VirtualAlloc (size flAllocationType flProtect : Z) : M Z :=
  emit (Ev_VirtualAlloc size flAllocationType flProtect) ;; ask VirtualAlloc_ret.

(** ctypes' default restype: the return register read as a C [int], so
    only the low 32 bits of a pointer survive, as a signed number. *)
Definition c_int (v : Z) : Z := (v + 2 ^ 31) mod 2 ^ 32 - 2 ^ 31.
Arguments c_int : simpl never.

(** The text ctypes gives the OSError it makes of an access violation on
    a write. *)
Definition access_violation (addr : Z) : string :=
  ("exception: access violation writing 0x" ++ zfill 16 (hex_upper (addr mod 2 ^ 64)))%string.
Arguments access_violation : simpl never.

(** [ctypes.memmove(addr, code, size)].  The only memory the call can
    count on is the block VirtualAlloc handed out; a write to any other
    address is an access violation, which ctypes raises as OSError. *)
Definition ctypes_memmove (addr : Z) (code : list byte) : M unit :=
  emit (Ev_memmove addr code) ;;
  fun h s =>
    if addr =? VirtualAlloc_ret h then (Return tt, s)
    else (Raise (OSError (access_violation addr)), s).

Definition is_step (e : Event) : bool :=
  match e with Ev_rdrand64_step _ => true | _ => false end.

Definition count (p : Event -> bool) (tr : list Event) : nat :=
  List.length (filter p tr).

Definition count_steps (tr : list Event) : nat := count is_step tr.

(** [result = c_uint64()] *)
Definition new_result : M unit :=
  fun _ s => (Return tt, {| trace := trace s; result_cell := 0 |}).

(** [result.value] *)
Definition result_value : M Z := fun _ s => (Return (result_cell s), s).

(** Calling the stub built at [addr] with [byref(result)]: the CPU's n-th
    answer is stored in the 64-bit cell and the carry flag comes back as the
    [c_bool] result. *)
Definition call_rdrand64_step (addr : Z) : M bool :=
  fun h s =>
    let '(cf, v) := rdrand_hw h (count_steps (trace s)) in
    (Return cf,
     {| trace := trace s ++ [Ev_rdrand64_step addr];
        result_cell := v mod 2 ^ 64 |}).

(** ** class RandomNumberGenerator *)

Definition _PF_RDRAND_AVAILABLE : Z := 33.

(** *** Capability tests (lines 88-100) *)

Definition supports_entropy : M bool := ret true.

Definition supports_crypto_api : M bool :=
  sys <- py_platform_system ;;
  ret (sys =? "Windows")%string.

Definition supports_rdrand : M bool :=
  sys <- py_platform_system ;;
  if negb (sys =? "Windows")%string then ret false
  else
    r <- kernel32_IsProcessorFeaturePresent _PF_RDRAND_AVAILABLE ;;
    ret (negb (r =? 0)).

(** *** [_make_rdrand_asm] (lines 116-125) *)

Definition rdrand_code : list byte :=
  [x48; x31; xc0; x0f; xc7; xf0; x48; x89; x01; x0f; x92; xc0; xc3].

(** The callable is represented by the address it jumps to.  No restype
    is set on VirtualAlloc (line 121), so [addr] is the [c_int] reading of
    the pointer. *)
Definition _make_rdrand_asm : M Z :=
  let code := rdrand_code in
  let size := Z.of_nat (List.length code) in
  ptr <- kernel32_VirtualAlloc size 0x1000 0x40 ;;
  let addr := c_int ptr in
  if addr =? 0 then raise (OSError "VirtualAlloc failed")
  else
    ctypes_memmove addr code ;;
    ret addr.

(** *** Public RNG APIs (lines 40-83) *)

Definition entropy_pool (lo hi : Z) : M Z :=
  lift (_check_range lo hi) ;;
  bs <- os_urandom 8 ;;
  rand64 <- struct_unpack_Q bs ;;
  lift (_map rand64 lo hi).

Definition crypto_api (lo hi : Z) : M Z :=
  sys <- py_platform_system ;;
  if negb (sys =? "Windows")%string then
    raise (OSError "CryptGenRandom is Windows‑only")
  else
    lift (_check_range lo hi) ;;
    acq <- advapi32_CryptAcquireContextW 1 0xF0000000 ;;
    let '(ok, hprov) := acq in
    if ok =? 0 then
      code <- kernel32_GetLastError ;;
      raise (OSError ("CryptAcquireContextW failed (0x" ++ format_08X code ++ ")"))
    else
      rand64 <- try_finally
                  (gen <- advapi32_CryptGenRandom hprov 8 ;;
                   let '(ok', buf) := gen in
                   if ok' =? 0 then
                     code <- kernel32_GetLastError ;;
                     raise (OSError ("CryptGenRandom failed (0x" ++ format_08X code ++ ")"))
                   else struct_unpack_Q buf)
                  (advapi32_CryptReleaseContext hprov 0) ;;
      lift (_map rand64 lo hi).

Definition retries : nat := 10.

(** The body of the retry loop (lines 81-82): one call of the stub, and a
    [return] out of the method when it reports success. *)
Definition rdrand_attempt (rdrand64_step lo hi : Z) : M (option Z) :=
  cf <- call_rdrand64_step rdrand64_step ;;
  if (cf : bool) then
    v <- result_value ;;
    x <- lift (_map v lo hi) ;;
    ret (Some x)
  else ret None.

Definition rdrand (lo hi : Z) : M Z :=
  ok <- supports_rdrand ;;
  if negb ok then raise (OSError "RDRAND not supported on this CPU/OS")
  else
    lift (_check_range lo hi) ;;
    rdrand64_step <- _make_rdrand_asm ;;
    new_result ;;
    r <- for_range retries (rdrand_attempt rdrand64_step lo hi) ;;
    match r with
    | Some x => ret x
    | None => raise (RuntimeError "RDRAND returned CF=0 ten times")
    end.

(** The three back-ends as the GUI lists them in [_build]. *)
Inductive Backend : Type := EntropyPool | CryptoAPI | RDRAND.

Definition generate (b : Backend) (lo hi : Z) : M Z :=
  match b with
  | EntropyPool => entropy_pool lo hi
  | CryptoAPI => crypto_api lo hi
  | RDRAND => rdrand lo hi
  end.

Definition is_supported (b : Backend) : M bool :=
  match b with
  | EntropyPool => supports_entropy
  | CryptoAPI => supports_crypto_api
  | RDRAND => supports_rdrand
  end.

(** ** archive/random_number_2024.py

    The earlier version kept in the repository.  Its generators live in two
    classes that repeat each other's method names; the ones modelled are
    those the statements below refer to. *)

Module Archive.

Definition SECRNG_SUCCESS : Z := 0.

(** [f"{n}"] for an int. *)
Definition format_int (n : Z) : string := NilZero.string_of_int (Z.to_int n).

(** [ctypes.windll]: the attribute exists on Windows only. *)
Definition ctypes_windll : M unit :=
  fun h s =>
    if (platform_system h =? "Windows")%string then (Return tt, s)
    else (Raise (AttributeError "module 'ctypes' has no attribute 'windll'"), s).

Definition py_print (text : string) : M unit := emit (Ev_print text).
Definition logger_error (text : string) : M unit := emit (Ev_logger_error text).

(** [min_value + (v % (max_value - min_value + 1))], written inline in
    every generator of the file. *)
Definition scale (v min_value max_value : Z) : M Z :=
  r <- lift (py_mod v (max_value - min_value + 1)) ;;
  ret (min_value + r).

Definition is_amd_stub (e : Event) : bool :=
  match e with Ev_amd_stub _ _ => true | _ => false end.

(** Calling the AMD stub built at [addr] with [(byref(rng64), retry_count)]. *)
Definition call_amd_stub (addr retry_count : Z) : M Z :=
  fun h s =>
    let '(r, stored) := amd_stub h (count is_amd_stub (trace s)) in
    (Return r,
     {| trace := trace s ++ [Ev_amd_stub addr retry_count];
        result_cell := match stored with
                       | Some v => v mod 2 ^ 64
                       | None => result_cell s
                       end |}).

Module RandomNumberGenerator.

(** Lines 49-57. *)
Definition generate_crypto_hardware_random (min_value max_value : Z) : M pyval :=
  try_except
    (random_bytes <- os_urandom 8 ;;
     random_long <- struct_unpack_Q random_bytes ;;
     v <- scale random_long min_value max_value ;;
     ret (PyInt v))
    (fun e =>
       py_print ("Error: " ++ exn_str e) ;;
       ret PyNone).

End RandomNumberGenerator.

Module RandomNumberGeneratorGUI.

(** Lines 182-199.  [random_number] is assigned and never used; the
    method has no [return]. *)
Definition generate_crypto_hardware_random (min_value max_value : Z) : M pyval :=
  ctypes_windll ;;
  acq <- advapi32_CryptAcquireContextW 1 0xF0000000 ;;
  let '(ok, hCryptProv) := acq in
  if negb (ok =? 0) then
    gen <- advapi32_CryptGenRandom hCryptProv 8 ;;
    let '(ok', buf) := gen in
    (if negb (ok' =? 0) then
       let random_number := le_bytes_to_Z (rev buf) in
       ret tt
     else
       error_code <- kernel32_GetLastError ;;
       advapi32_CryptReleaseContext hCryptProv 0 ;;
       raise (OSError ("Failed to generate random number on Windows, error code: "
                       ++ format_int error_code))) ;;
    advapi32_CryptReleaseContext hCryptProv 0 ;;
    ret PyNone
  else
    error_code <- kernel32_GetLastError ;;
    raise (OSError ("Failed to acquire cryptographic context on Windows, error code: "
                    ++ format_int error_code)).

(** Lines 262-274. *)
Definition setup_asm_function (asm_code : list byte) : M Z :=
  ctypes_windll ;;
  let size := Z.of_nat (List.length asm_code) in
  addr <- kernel32_VirtualAlloc size 0x1000 0x40 ;;
  if addr =? 0 then raise (OSError "Failed to allocate memory")
  else
    ctypes_memmove addr asm_code ;;
    ret addr.

Definition amd_asm_code : list byte :=
  [x48; x31; xc0; x0f; xc7; xf0; x74; x03; xb0; x01; xc3; x31; xc0; xc3].

(** The local helper [get_rdrand64u(rng64, retry_count)], defined twice
    with the same body (lines 202-206 and 245-249). *)
Definition get_rdrand64u (retry_count : Z) : M Z :=
  rdrand_func <- setup_asm_function amd_asm_code ;;
  call_amd_stub rdrand_func retry_count.

(** Lines 209-215 and, again, 254-260. *)
Definition amd_rdrand_block (min_value max_value : Z) : M Z :=
  new_result ;;
  r <- get_rdrand64u 10 ;;
  if negb (r =? SECRNG_SUCCESS) then
    raise (RuntimeError "AMD RDRAND instruction failed")
  else
    v <- result_value ;;
    scale v min_value max_value.

(** Lines 220-240: CryptGenRandom on a NULL provider handle, its BOOL
    ignored. *)
Definition amd_cryptgenrandom_block (min_value max_value : Z) : M Z :=
  ctypes_windll ;;
  let hCryptProv := 0 in
  gen <- advapi32_CryptGenRandom hCryptProv 8 ;;
  random_long <- struct_unpack_Q (snd gen) ;;
  scale random_long min_value max_value.

(** Lines 201-260.  Each [try] block either returns out of the method
    ([Some]) or is abandoned by its [except], which only logs. *)
Definition generate_amd_hardware_random (min_value max_value : Z) : M pyval :=
  first <- try_except
             (v <- amd_rdrand_block min_value max_value ;; ret (Some v))
             (fun e =>
                logger_error ("Failed to generate random number using AMD RDRAND: "
                              ++ exn_str e) ;;
                ret None) ;;
  match first with
  | Some v => ret (PyInt v)
  | None =>
      second <- try_except
                  (v <- amd_cryptgenrandom_block min_value max_value ;; ret (Some v))
                  (fun e =>
                     logger_error
                       ("Failed to generate random number using AMD CryptGenRandom: "
                        ++ exn_str e) ;;
                     ret None) ;;
      match second with
      | Some v => ret (PyInt v)
      | None =>
          v <- amd_rdrand_block min_value max_value ;;
          ret (PyInt v)
      end
  end.

End RandomNumberGeneratorGUI.

End Archive.

(** ** Concrete hosts *)

Definition sample_bytes (n : nat) : byte :=
  match n with
  | O => x2a
  | S O => x01
  | _ => x00
  end.

(** A Windows machine on which everything works; RDRAND delivers on the
    [first_ok]-th attempt (counted from 1), with value [1000 + attempt]. *)
Definition windows_host (first_ok : nat) : Host := {|
  platform_system := "Windows";
  byteorder_little := true;
  IsProcessorFeaturePresent := fun f => if f =? 33 then 1 else 0;
  urandom_error := None;
  urandom_byte := sample_bytes;
  CryptAcquireContextW_ret := 1;
  CryptAcquireContextW_handle := 0x5150;
  CryptGenRandom_ret := 1;
  CryptGenRandom_byte := sample_bytes;
  GetLastError_ret := 0;
  VirtualAlloc_ret := 0x20000;
  rdrand_hw := fun n => ((first_ok <=? S n)%nat, 1000 + Z.of_nat (S n));
  amd_stub := fun _ => (1, None)
|}.

Definition linux_host : Host := {|
  platform_system := "Linux";
  byteorder_little := true;
  IsProcessorFeaturePresent := fun _ => 0;
  urandom_error := None;
  urandom_byte := sample_bytes;
  CryptAcquireContextW_ret := 0;
  CryptAcquireContextW_handle := 0;
  CryptGenRandom_ret := 0;
  CryptGenRandom_byte := sample_bytes;
  GetLastError_ret := 0;
  VirtualAlloc_ret := 0;
  rdrand_hw := fun _ => (false, 0);
  amd_stub := fun _ => (1, None)
|}.

(** Windows hosts with one fault injected. *)
Definition with_acquire_failure (code : Z) (h : Host) : Host := {|
  platform_system := platform_system h;
  byteorder_little := byteorder_little h;
  IsProcessorFeaturePresent := IsProcessorFeaturePresent h;
  urandom_error := urandom_error h;
  urandom_byte := urandom_byte h;
  CryptAcquireContextW_ret := 0;
  CryptAcquireContextW_handle := 0;
  CryptGenRandom_ret := CryptGenRandom_ret h;
  CryptGenRandom_byte := CryptGenRandom_byte h;
  GetLastError_ret := code;
  VirtualAlloc_ret := VirtualAlloc_ret h;
  rdrand_hw := rdrand_hw h;
  amd_stub := amd_stub h
|}.

Definition with_genrandom_failure (code : Z) (h : Host) : Host := {|
  platform_system := platform_system h;
  byteorder_little := byteorder_little h;
  IsProcessorFeaturePresent := IsProcessorFeaturePresent h;
  urandom_error := urandom_error h;
  urandom_byte := urandom_byte h;
  CryptAcquireContextW_ret := CryptAcquireContextW_ret h;
  CryptAcquireContextW_handle := CryptAcquireContextW_handle h;
  CryptGenRandom_ret := 0;
  CryptGenRandom_byte := CryptGenRandom_byte h;
  GetLastError_ret := code;
  VirtualAlloc_ret := VirtualAlloc_ret h;
  rdrand_hw := rdrand_hw h;
  amd_stub := amd_stub h
|}.

Definition with_urandom_failure (e : exn) (h : Host) : Host := {|
  platform_system := platform_system h;
  byteorder_little := byteorder_little h;
  IsProcessorFeaturePresent := IsProcessorFeaturePresent h;
  urandom_error := Some e;
  urandom_byte := urandom_byte h;
  CryptAcquireContextW_ret := CryptAcquireContextW_ret h;
  CryptAcquireContextW_handle := CryptAcquireContextW_handle h;
  CryptGenRandom_ret := CryptGenRandom_ret h;
  CryptGenRandom_byte := CryptGenRandom_byte h;
  GetLastError_ret := GetLastError_ret h;
  VirtualAlloc_ret := VirtualAlloc_ret h;
  rdrand_hw := rdrand_hw h;
  amd_stub := amd_stub h
|}.

Definition with_alloc_failure (h : Host) : Host := {|
  platform_system := platform_system h;
  byteorder_little := byteorder_little h;
  IsProcessorFeaturePresent := IsProcessorFeaturePresent h;
  urandom_error := urandom_error h;
  urandom_byte := urandom_byte h;
  CryptAcquireContextW_ret := CryptAcquireContextW_ret h;
  CryptAcquireContextW_handle := CryptAcquireContextW_handle h;
  CryptGenRandom_ret := CryptGenRandom_ret h;
  CryptGenRandom_byte := CryptGenRandom_byte h;
  GetLastError_ret := GetLastError_ret h;
  VirtualAlloc_ret := 0;
  rdrand_hw := rdrand_hw h;
  amd_stub := amd_stub h
|}.

(** ** Trace vocabulary used by the statements *)

Definition is_release (e : Event) : bool :=
  match e with Ev_CryptReleaseContext _ _ => true | _ => false end.

Definition is_alloc (e : Event) : bool :=
  match e with Ev_VirtualAlloc _ _ _ => true | _ => false end.

(** Calls that belong to acquiring entropy: the kernel pool, the crypto
    provider, the RDRAND stub, and the set-up they need (provider context,
    executable memory). *)
Definition is_acquisition (e : Event) : bool :=
  match e with
  | Ev_urandom _ | Ev_CryptGenRandom _ _ | Ev_rdrand64_step _
  | Ev_CryptAcquireContextW _ _ | Ev_VirtualAlloc _ _ _ | Ev_memmove _ _ => true
  | _ => false
  end.

(** Read-only questions about the machine. *)
Definition is_query (e : Event) : bool :=
  match e with
  | Ev_platform_system | Ev_IsProcessorFeaturePresent _ => true
  | _ => false
  end.

(** The attempt (counted from 1) at which the CPU first sets the carry flag
    within [n] tries starting at execution [start], with the value of that
    attempt; [None] when all [n] tries come back with CF=0. *)
Fixpoint first_success (hw : nat -> bool * Z) (start n : nat) : option (nat * Z) :=
  match n with
  | O => None
  | S n' =>
      if fst (hw start) then Some (1%nat, snd (hw start))
      else
        match first_success hw (S start) n' with
        | Some (k, v) => Some (S k, v)
        | None => None
        end
  end.

(** ** What each back-end does, case by case

    For each public method: the outcome and the complete trace of a call
    from the initial state, as a function of the host's answers.  The
    claims below are read off these tables. *)

Definition windows (h : Host) : bool := (platform_system h =? "Windows")%string.

Definition native_u64 (h : Host) (bs : list byte) : Z :=
  le_bytes_to_Z (if byteorder_little h then bs else rev bs).

Definition urandom_u64 (h : Host) : Z :=
  native_u64 h (map (urandom_byte h) (seq 0 8)).

Definition genrandom_u64 (h : Host) : Z :=
  native_u64 h (map (CryptGenRandom_byte h) (seq 0 8)).

Definition entropy_pool_table (h : Host) (lo hi : Z) : Outcome Z * list Event :=
  if lo >=? hi then (Raise (ValueError "min must be < max"), [])
  else
    match urandom_error h with
    | Some e => (Raise e, [Ev_urandom 8])
    | None => (Return (lo + urandom_u64 h mod (hi - lo + 1)), [Ev_urandom 8])
    end.

Definition crypto_api_table (h : Host) (lo hi : Z) : Outcome Z * list Event :=
  if negb (windows h) then
    (Raise (OSError "CryptGenRandom is Windows‑only"), [Ev_platform_system])
  else if lo >=? hi then
    (Raise (ValueError "min must be < max"), [Ev_platform_system])
  else if CryptAcquireContextW_ret h =? 0 then
    (Raise (OSError ("CryptAcquireContextW failed (0x"
                     ++ format_08X (GetLastError_ret h) ++ ")")),
     [Ev_platform_system; Ev_CryptAcquireContextW 1 0xF0000000; Ev_GetLastError])
  else if CryptGenRandom_ret h =? 0 then
    (Raise (OSError ("CryptGenRandom failed (0x"
                     ++ format_08X (GetLastError_ret h) ++ ")")),
     [Ev_platform_system; Ev_CryptAcquireContextW 1 0xF0000000;
      Ev_CryptGenRandom (CryptAcquireContextW_handle h) 8; Ev_GetLastError;
      Ev_CryptReleaseContext (CryptAcquireContextW_handle h) 0])
  else
    (Return (lo + genrandom_u64 h mod (hi - lo + 1)),
     [Ev_platform_system; Ev_CryptAcquireContextW 1 0xF0000000;
      Ev_CryptGenRandom (CryptAcquireContextW_handle h) 8;
      Ev_CryptReleaseContext (CryptAcquireContextW_handle h) 0]).

Definition rdrand_supported (h : Host) : bool :=
  windows h && negb (IsProcessorFeaturePresent h _PF_RDRAND_AVAILABLE =? 0).

Definition rdrand_probe_trace (h : Host) : list Event :=
  if windows h then [Ev_platform_system; Ev_IsProcessorFeaturePresent 33]
  else [Ev_platform_system].

(** What [_make_rdrand_asm] holds as [addr] on host [h]. *)
Definition rdrand_addr (h : Host) : Z := c_int (VirtualAlloc_ret h).

(** The stub gets built: the pointer survives the [c_int] reading, so the
    NULL test passes and memmove writes into the allocated block. *)
Definition stub_installed (h : Host) : bool :=
  negb (rdrand_addr h =? 0) && (rdrand_addr h =? VirtualAlloc_ret h).

Definition rdrand_table (h : Host) (lo hi : Z) : Outcome Z * list Event :=
  if negb (rdrand_supported h) then
    (Raise (OSError "RDRAND not supported on this CPU/OS"), rdrand_probe_trace h)
  else if lo >=? hi then
    (Raise (ValueError "min must be < max"), rdrand_probe_trace h)
  else if rdrand_addr h =? 0 then
    (Raise (OSError "VirtualAlloc failed"),
     rdrand_probe_trace h ++ [Ev_VirtualAlloc 13 0x1000 0x40])
  else if negb (rdrand_addr h =? VirtualAlloc_ret h) then
    (Raise (OSError (access_violation (rdrand_addr h))),
     rdrand_probe_trace h
     ++ [Ev_VirtualAlloc 13 0x1000 0x40; Ev_memmove (rdrand_addr h) rdrand_code])
  else
    let setup := rdrand_probe_trace h
                 ++ [Ev_VirtualAlloc 13 0x1000 0x40;
                     Ev_memmove (rdrand_addr h) rdrand_code] in
    match first_success (rdrand_hw h) 0 retries with
    | Some (k, v) =>
        (Return (lo + (v mod 2 ^ 64) mod (hi - lo + 1)),
         setup ++ repeat (Ev_rdrand64_step (rdrand_addr h)) k)
    | None =>
        (Raise (RuntimeError "RDRAND returned CF=0 ten times"),
         setup ++ repeat (Ev_rdrand64_step (rdrand_addr h)) retries)
    end.

Definition table (b : Backend) : Host -> Z -> Z -> Outcome Z * list Event :=
  match b with
  | EntropyPool => entropy_pool_table
  | CryptoAPI => crypto_api_table
  | RDRAND => rdrand_table
  end.

Definition observe {A} (m : M A) (h : Host) : Outcome A * list Event :=
  (outcome_of m h, trace_of m h).

(** ** Specification-side readings

    The words of the design document, written once so that the statements
    below can compare the methods against them. *)

(** CapabilityProbe: what [is_supported] must answer on host [h]. *)
Definition probe_value (b : Backend) (h : Host) : bool :=
  match b with
  | EntropyPool => true
  | CryptoAPI => windows h
  | RDRAND => rdrand_supported h
  end.

(** The message of the OSError a back-end raises when its platform gate
    turns the call away. *)
Definition unsupported_message (b : Backend) : string :=
  match b with
  | EntropyPool => ""
  | CryptoAPI => "CryptGenRandom is Windows‑only"
  | RDRAND => "RDRAND not supported on this CPU/OS"
  end.

(** EntropySource.raw(): the raw 64-bit value the back-end gets out of
    host [h], or the failure it meets on the way. *)
Definition raw (b : Backend) (h : Host) : Z + exn :=
  match b with
  | EntropyPool =>
      match urandom_error h with
      | Some e => inr e
      | None => inl (urandom_u64 h)
      end
  | CryptoAPI =>
      if negb (windows h) then inr (OSError (unsupported_message CryptoAPI))
      else if CryptAcquireContextW_ret h =? 0 then
        inr (OSError ("CryptAcquireContextW failed (0x"
                      ++ format_08X (GetLastError_ret h) ++ ")"))
      else if CryptGenRandom_ret h =? 0 then
        inr (OSError ("CryptGenRandom failed (0x"
                      ++ format_08X (GetLastError_ret h) ++ ")"))
      else inl (genrandom_u64 h)
  | RDRAND =>
      if negb (rdrand_supported h) then inr (OSError (unsupported_message RDRAND))
      else if rdrand_addr h =? 0 then inr (OSError "VirtualAlloc failed")
      else if negb (rdrand_addr h =? VirtualAlloc_ret h) then
        inr (OSError (access_violation (rdrand_addr h)))
      else
        match first_success (rdrand_hw h) 0 retries with
        | Some (_, v) => inl (v mod 2 ^ 64)
        | None => inr (RuntimeError "RDRAND returned CF=0 ten times")
        end
  end.

(** Events of the entropy sources other than the RDRAND stub. *)
Definition is_other_source (e : Event) : bool :=
  match e with
  | Ev_urandom _ | Ev_CryptAcquireContextW _ _ | Ev_CryptGenRandom _ _
  | Ev_CryptReleaseContext _ _ => true
  | _ => false
  end.
(** ** Reading an error code back out of its text

    The inverse of [format_08X], used to show that the formatting keeps
    the whole code. *)

Definition hex_value (c : ascii) : Z :=
  match c with
  | "0" => 0 | "1" => 1 | "2" => 2 | "3" => 3 | "4" => 4 | "5" => 5
  | "6" => 6 | "7" => 7 | "8" => 8 | "9" => 9 | "A" => 10 | "B" => 11
  | "C" => 12 | "D" => 13 | "E" => 14 | "F" => 15 | _ => 0
  end%char.

Fixpoint hex_decode (acc : Z) (s : string) : Z :=
  match s with
  | EmptyString => acc
  | String c rest => hex_decode (16 * acc + hex_value c) rest
  end.

Definition starts_with_dash (s : string) : bool :=
  match s with
  | String "-" _ => true
  | _ => false
  end.

Definition parse_08X (s : string) : Z :=
  match s with
  | String "-" rest => - hex_decode 0 rest
  | _ => hex_decode 0 s
  end.

(** ** More trace vocabulary *)

Definition is_acquire (e : Event) : bool :=
  match e with Ev_CryptAcquireContextW _ _ => true | _ => false end.

Definition is_genrandom (e : Event) : bool :=
  match e with Ev_CryptGenRandom _ _ => true | _ => false end.

(** ** The rest of random_number_2025.py: the Tk front end (lines 131-239)

    Widgets are the handful of values the callbacks read and write. *)

(** [f"{val}"] for an int. *)
Definition format_int (n : Z) : string := NilZero.string_of_int (Z.to_int n).

(** [tk.IntVar.get()]: the integer in the entry, or the TclError raised
    when its text is not a number. *)
Inductive IntVar : Type :=
| IntVar_value (z : Z)
| IntVar_TclError (msg : string).

(** What an [except Exception] clause of the front ends can catch: an
    exception of a generator, or the TclError of an entry. *)
Inductive caught : Type :=
| Generator_exn (e : exn)
| TclError (msg : string).

(** [str(exc)] *)
Definition caught_str (c : caught) : string :=
  match c with
  | Generator_exn e => exn_str e
  | TclError msg => msg
  end.

(** [result]: the StringVar under the entries; [button_disabled]: the
    ttk state flag of the button; [errors_shown]: the texts of the
    messagebox.showerror dialogs, oldest first; [logged]: the records
    written through the module logger. *)
Record Widgets : Type := {
  result : string;
  button_disabled : bool;
  errors_shown : list string;
  logged : list string
}.

Definition result_set (text : string) (w : Widgets) : Widgets :=
  {| result := text; button_disabled := button_disabled w;
     errors_shown := errors_shown w; logged := logged w |}.

Definition button_set_disabled (d : bool) (w : Widgets) : Widgets :=
  {| result := result w; button_disabled := d;
     errors_shown := errors_shown w; logged := logged w |}.

Definition messagebox_showerror (text : string) (w : Widgets) : Widgets :=
  {| result := result w; button_disabled := button_disabled w;
     errors_shown := errors_shown w ++ [text]; logged := logged w |}.

Definition log_exception (text : string) (w : Widgets) : Widgets :=
  {| result := result w; button_disabled := button_disabled w;
     errors_shown := errors_shown w; logged := logged w ++ [text] |}.

Module GUI.

(** [_describe] (lines 204-211): [texts.get(name, "")]. *)
Definition texts : list (string * string) :=
  [("Entropy pool", "os.urandom / getrandom – kernel entropy.");
   ("Windows CryptoAPI", "advapi32!CryptGenRandom (FIPS 140‑2).");
   ("Intel/AMD RDRAND", "Hardware RNG instruction (x86‑64).")].

Fixpoint dict_get (d : list (string * string)) (key default : string) : string :=
  match d with
  | [] => default
  | (k, v) :: rest => if (k =? key)%string then v else dict_get rest key default
  end.

Definition _describe (name : string) : string := dict_get texts name EmptyString.

(** What [_make_panel] (lines 164-202) puts into one frame. *)
Record Panel : Type := {
  panel_title : string;
  panel_description : string;
  panel_min : Z;
  panel_max : Z;
  panel_result : string;
  button_text : string;
  button_normal : bool;
  panel_func : Backend
}.

Definition _make_panel (title : string) (func : Backend) (supported : bool) : Panel :=
  {| panel_title := title;
     panel_description := _describe title;
     panel_min := 1;
     panel_max := 100;
     panel_result := "Result:";
     button_text := if supported then "Generate" else "Unavailable";
     button_normal := supported;
     panel_func := func |}.

(** [_build] (lines 147-161): the three probes are evaluated while the
    list is built, then one panel is made per entry. *)
Definition _build : M (list Panel) :=
  e <- supports_entropy ;;
  c <- supports_crypto_api ;;
  r <- supports_rdrand ;;
  let generators :=
    [("Entropy pool", EntropyPool, e);
     ("Windows CryptoAPI", CryptoAPI, c);
     ("Intel/AMD RDRAND", RDRAND, r)] in
  ret (map (fun g => _make_panel (fst (fst g)) (snd (fst g)) (snd g)) generators).

(** The body of the worker thread, [work] in [_run] (lines 222-232).
    [min_var.get()] is evaluated before [max_var.get()], both before
    [func]; the [finally] clause runs on every path. *)
Definition work (func : Z -> Z -> M Z) (min_var max_var : IntVar)
    (h : Host) (s : State) (w : Widgets) : State * Widgets :=
  let w1 := result_set "…" w in
  let '(r, s', w2) :=
    match min_var with
    | IntVar_TclError m => (Some (TclError m), s, w1)
    | IntVar_value lo =>
        match max_var with
        | IntVar_TclError m => (Some (TclError m), s, w1)
        | IntVar_value hi =>
            match func lo hi h s with
            | (Return val, s1) =>
                (None, s1, result_set ("Result: " ++ format_int val) w1)
            | (Raise e, s1) => (Some (Generator_exn e), s1, w1)
            end
        end
    end in
  let w3 :=
    match r with
    | None => w2
    | Some exc =>
        result_set "Error"
          (messagebox_showerror (caught_str exc)
             (log_exception "Generator failed" w2))
    end in
  (s', button_set_disabled false w3).

End GUI.

(** ** The rest of archive/random_number_2024.py *)

Module ArchiveRest.

(** [generate_entropy_pool_random] (lines 23-27, and again 157-160). *)
Definition generate_entropy_pool_random (min_value max_value : Z) : M Z :=
  random_bytes <- os_urandom 8 ;;
  random_long <- struct_unpack_Q random_bytes ;;
  Archive.scale random_long min_value max_value.

Definition intel_asm_code : list byte :=
  [x48; x31; xc0; x0f; xc7; xf0; x48; x89; x07; x0f; x92; xc0; xc3].

(** [self.setup_asm_function] in class RandomNumberGenerator, which does
    not define that method. *)
Definition setup_asm_function_missing (asm_code : list byte) : M Z :=
  raise (AttributeError
           "'RandomNumberGenerator' object has no attribute 'setup_asm_function'").

Section Intel.

(** The Intel stub at its n-th execution: its [c_bool] result and, if it
    stores through its pointer argument, the value stored. *)
Variable intel_stub : nat -> bool * option Z.

(** [rdrand_func(ctypes.byref(result))] *)
Definition call_intel_stub (addr : Z) : M bool :=
  fun h s =>
    let '(ok, stored) := intel_stub (count_steps (trace s)) in
    (Return ok,
     {| trace := trace s ++ [Ev_rdrand64_step addr];
        result_cell := match stored with
                       | Some v => v mod 2 ^ 64
                       | None => result_cell s
                       end |}).

(** [generate_intel_hardware_random], the same text in both classes
    (lines 29-47 and 162-180); [setup_asm_function] is what
    [self.setup_asm_function] resolves to in the class at hand. *)
Definition generate_intel_hardware_random
    (setup_asm_function : list byte -> M Z) (min_value max_value : Z) : M Z :=
  sys <- py_platform_system ;;
  if negb (sys =? "Windows")%string then
    raise (OSError "Intel Hardware RNG is only supported on Windows")
  else
    rdrand_func <- try_except
                     (setup_asm_function intel_asm_code)
                     (fun e => raise (RuntimeError ("Failed to set up Intel RDRAND: "
                                                    ++ exn_str e))) ;;
    new_result ;;
    ok <- call_intel_stub rdrand_func ;;
    if negb (ok : bool) then raise (RuntimeError "Intel RDRAND instruction failed")
    else
      v <- result_value ;;
      Archive.scale v min_value max_value.

End Intel.

(** [needle in haystack] for str. *)
Fixpoint contains (needle haystack : string) : bool :=
  prefix needle haystack
  || match haystack with
     | EmptyString => false
     | String _ rest => contains needle rest
     end.

(** The four methods a frame's button can be bound to. *)
Inductive generator : Type :=
| generate_entropy_pool
| generate_intel_hardware
| generate_crypto_hardware
| generate_amd_hardware.

(** [create_generator_frame] (lines 90-136): the description shown and
    the method bound to the button, both chosen from the title. *)
Definition description_of (title : string) : string :=
  if contains "Entropy" title then
    "Using the operating system's entropy pool. The entropy pool is a collection of random data gathered from various sources, such as keyboard and mouse input, network packets, and disk I/O. This method is considered to be highly random and secure."
  else if contains "Intel" title then
    "Using Intel's Hardware Random Number Generator (HRNG). The HRNG is a hardware-based random number generator that uses thermal noise to generate random numbers. This method is considered to be highly random and secure, but it is only for Intel processors."
  else if contains "Crypt" title then
    "Uses Windows's CryptGenRandom from win32crypt to generate a random number. It fills a buffer with cryptographically random bytes. An integer (number) is generated from the bytes."
  else if contains "AMD" title then
    "Uses AMD's Hardware Random Number Generator (HRNG) to generate a random number. The HRNG is a hardware-based random number generator that uses thermal noise to generate random numbers. Highly random and secure, but it is only for AMD processors."
  else EmptyString.

Definition generate_func_of (title : string) : generator :=
  if contains "Intel" title then generate_intel_hardware
  else if contains "Operating" title then generate_crypto_hardware
  else if contains "AMD" title then generate_amd_hardware
  else generate_entropy_pool.

Record Frame : Type := {
  frame_title : string;
  frame_description : string;
  frame_min : Z;
  frame_max : Z;
  frame_result : string;
  frame_func : generator
}.

Definition create_generator_frame (title : string) : Frame :=
  {| frame_title := title;
     frame_description := description_of title;
     frame_min := 1;
     frame_max := 100;
     frame_result := "Result: ";
     frame_func := generate_func_of title |}.

(** [create_widgets] (lines 75-88). *)
Definition create_widgets : list Frame :=
  [create_generator_frame "Entropy Pool Generator";
   create_generator_frame "Intel Hardware Generator";
   create_generator_frame "CryptGenRandom win32crypt Generator";
   create_generator_frame "AMD Hardware Generator"].

(** [f"Result: {result}"] *)
Definition format_result (v : pyval) : string :=
  match v with
  | PyInt z => format_int z
  | PyNone => "None"
  end.

(** [task] in [generate_wrapper] (lines 139-153). *)
Definition task (generate_func : Z -> Z -> M pyval) (min_var max_var : IntVar)
    (h : Host) (s : State) (w : Widgets) : State * Widgets :=
  let w1 := result_set "Generating..." (button_set_disabled true w) in
  let '(r, s', w2) :=
    match min_var with
    | IntVar_TclError m => (Some (TclError m), s, w1)
    | IntVar_value min_val =>
        match max_var with
        | IntVar_TclError m => (Some (TclError m), s, w1)
        | IntVar_value max_val =>
            if min_val >=? max_val then
              (Some (Generator_exn (ValueError "Min value must be less than Max value")),
               s, w1)
            else
              match generate_func min_val max_val h s with
              | (Return res, s1) =>
                  (None, s1, result_set ("Result: " ++ format_result res) w1)
              | (Raise e, s1) => (Some (Generator_exn e), s1, w1)
              end
        end
    end in
  let w3 :=
    match r with
    | None => w2
    | Some exc =>
        result_set "Error occurred" (messagebox_showerror (caught_str exc) w2)
    end in
  (s', button_set_disabled false w3).

End ArchiveRest.

(** ** One more fault to inject *)

Definition with_amd_stub (stub : nat -> Z * option Z) (h : Host) : Host := {|
  platform_system := platform_system h;
  byteorder_little := byteorder_little h;
  IsProcessorFeaturePresent := IsProcessorFeaturePresent h;
  urandom_error := urandom_error h;
  urandom_byte := urandom_byte h;
  CryptAcquireContextW_ret := CryptAcquireContextW_ret h;
  CryptAcquireContextW_handle := CryptAcquireContextW_handle h;
  CryptGenRandom_ret := CryptGenRandom_ret h;
  CryptGenRandom_byte := CryptGenRandom_byte h;
  GetLastError_ret := GetLastError_ret h;
  VirtualAlloc_ret := VirtualAlloc_ret h;
  rdrand_hw := rdrand_hw h;
  amd_stub := stub
|}.

Definition blank_widgets : Widgets :=
  {| result := "Result: "; button_disabled := false;
     errors_shown := []; logged := [] |}.

(** ** The entry point of random_number_2025.py (lines 245-256) *)

Module Main.

Fixpoint spaces (k : nat) : string :=
  match k with
  | O => EmptyString
  | S k' => String " "%char (spaces k')
  end.

(** [f"{name:9}"] for a str: left-aligned in nine columns. *)
Definition format_9 (name : string) : string :=
  (name ++ spaces (9 - String.length name))%string.

Definition is_print (e : Event) : bool :=
  match e with Ev_print _ => true | _ => false end.

(** A stdout in a legacy code page: a line holding the tick mark U+2713
    cannot be encoded. *)
Definition cp1252_stdout (text : string) : option exn :=
  if ArchiveRest.contains "✓" text then
    Some (UnicodeEncodeError
            "'charmap' codec can't encode character '\u2713' in position 11: character maps to <undefined>")
  else None.

(** A stdout that takes every line. *)
Definition utf8_stdout (text : string) : option exn := None.

Section Stdout.

(** What sys.stdout raises when asked to write a line in its encoding;
    [None] when the line is written. *)
Variable stdout_error : string -> option exn.

(** [print(text)]: the line is encoded as a whole, so a failure writes
    nothing of it. *)
Definition print (text : string) : M unit :=
  match stdout_error text with
  | Some e => raise e
  | None => emit (Ev_print text)
  end.

(** One turn of the loop. *)
Definition report (name : string) (ok : bool) : M unit :=
  if ok then
    text <- (if (name =? "Entropy")%string then
               v <- entropy_pool 1 9 ;;
               ret (format_int v)
             else ret "✓") ;;
    print (format_9 name ++ ": " ++ text)
  else print (format_9 name ++ ": (unsupported)").

Fixpoint for_each (items : list (string * bool)) (body : string -> bool -> M unit)
    : M unit :=
  match items with
  | [] => ret tt
  | (name, ok) :: rest => body name ok ;; for_each rest body
  end.

(** The headless self-test: the tuple of pairs is built first (all three
    capability tests run), then the loop prints one line per pair. *)
Definition self_test : M unit :=
  e <- supports_entropy ;;
  c <- supports_crypto_api ;;
  r <- supports_rdrand ;;
  for_each [("Entropy", e); ("CryptoAPI", c); ("RDRAND", r)] report.

End Stdout.

End Main.

(** ** The processor-feature numbers of the Windows SDK

    Line 35 names its constant after PF_RDRAND_INSTRUCTION_AVAILABLE.  In
    the header winnt.h that name stands for 28; the number 33 is
    PF_RDPID_INSTRUCTION_AVAILABLE. *)
Definition PF_RDRAND_INSTRUCTION_AVAILABLE : Z := 28.
Definition PF_RDPID_INSTRUCTION_AVAILABLE : Z := 33.

(** A host whose processor has exactly the features listed. *)
Definition with_features (present : list Z) (h : Host) : Host := {|
  platform_system := platform_system h;
  byteorder_little := byteorder_little h;
  IsProcessorFeaturePresent := fun f => if existsb (Z.eqb f) present then 1 else 0;
  urandom_error := urandom_error h;
  urandom_byte := urandom_byte h;
  CryptAcquireContextW_ret := CryptAcquireContextW_ret h;
  CryptAcquireContextW_handle := CryptAcquireContextW_handle h;
  CryptGenRandom_ret := CryptGenRandom_ret h;
  CryptGenRandom_byte := CryptGenRandom_byte h;
  GetLastError_ret := GetLastError_ret h;
  VirtualAlloc_ret := VirtualAlloc_ret h;
  rdrand_hw := rdrand_hw h;
  amd_stub := amd_stub h
|}.

(** ** The range mapper *)

Lemma map_returns (v lo hi : Z) :
  lo < hi -> _map v lo hi = Return (lo + v mod (hi - lo + 1)).
Proof.
  intros Hlt. unfold _map, py_mod.
  destruct (hi - lo + 1 =? 0) eqn:E.
  - apply Z.eqb_eq in E. lia.
  - reflexivity.
Qed.

Lemma map_bounds (v lo hi : Z) :
  lo < hi -> lo <= lo + v mod (hi - lo + 1) <= hi.
Proof.
  intros Hlt.
  assert (0 <= v mod (hi - lo + 1) < hi - lo + 1) by (apply Z.mod_pos_bound; lia).
  lia.
Qed.

Lemma check_range_ok (lo hi : Z) : lo < hi -> _check_range lo hi = Return tt.
Proof.
  intros Hlt. unfold _check_range.
  destruct (lo >=? hi) eqn:E; [apply Z.geb_le in E; lia | reflexivity].
Qed.

Lemma check_range_fails (lo hi : Z) :
  lo >= hi -> _check_range lo hi = Raise (ValueError "min must be < max").
Proof.
  intros Hge. unfold _check_range.
  destruct (lo >=? hi) eqn:E; [reflexivity |].
  rewrite Z.geb_leb in E. apply Z.leb_gt in E. lia.
Qed.

(** C1. For lo < hi and a raw 64-bit value, [_map] returns exactly
    lo + (raw mod (hi - lo + 1)), that value lies in [lo, hi], and the two
    golden vectors of the specification hold: map(0, 1, 100) = 1 and
    map(2^64 - 1, 1, 100) = 1 + ((2^64 - 1) mod 100). *)
Theorem map_spec (raw lo hi : Z) :
  lo < hi ->
  0 <= raw < 2 ^ 64 ->
  _map raw lo hi = Return (lo + raw mod (hi - lo + 1))
  /\ lo <= lo + raw mod (hi - lo + 1) <= hi
  /\ _map 0 1 100 = Return 1
  /\ _map (2 ^ 64 - 1) 1 100 = Return (1 + (2 ^ 64 - 1) mod 100).
Proof.
  intros Hlt _. split; [| split; [| split]].
  - now apply map_returns.
  - now apply map_bounds.
  - reflexivity.
  - reflexivity.
Qed.

Lemma map_spec_witness :
  _map (2 ^ 64 - 1) 1 100 = Return (1 + (2 ^ 64 - 1) mod (100 - 1 + 1))
  /\ 1 <= 1 + (2 ^ 64 - 1) mod (100 - 1 + 1) <= 100
  /\ _map 0 1 100 = Return 1
  /\ _map (2 ^ 64 - 1) 1 100 = Return (1 + (2 ^ 64 - 1) mod 100).
Proof.
  apply (map_spec (2 ^ 64 - 1) 1 100); [lia | split; [lia | reflexivity]].
Defined.

(** C9. Once [_check_range] has let (lo, hi) through, the divisor
    hi - lo + 1 is at least 2, so the [%] in [_map] has a non-zero divisor
    and [_map] returns a value for every raw input. *)
Theorem checked_range_map_total (v lo hi : Z) :
  _check_range lo hi = Return tt ->
  2 <= hi - lo + 1
  /\ py_mod v (hi - lo + 1) = Return (v mod (hi - lo + 1))
  /\ _map v lo hi = Return (lo + v mod (hi - lo + 1)).
Proof.
  unfold _check_range. intros Hchk.
  destruct (lo >=? hi) eqn:E; [discriminate |].
  rewrite Z.geb_leb in E. apply Z.leb_gt in E.
  split; [lia |]. split.
  - unfold py_mod. destruct (hi - lo + 1 =? 0) eqn:E0; [| reflexivity].
    apply Z.eqb_eq in E0. lia.
  - apply map_returns. lia.
Qed.

Lemma checked_range_map_total_witness :
  2 <= 100 - 1 + 1
  /\ py_mod 298 (100 - 1 + 1) = Return (298 mod (100 - 1 + 1))
  /\ _map 298 1 100 = Return (1 + 298 mod (100 - 1 + 1)).
Proof.
  apply (checked_range_map_total 298 1 100). reflexivity.
Defined.

(** ** Formatting of error codes *)

Example format_08X_samples :
  format_08X 31 = "0000001F"
  /\ format_08X 0x80090016 = "80090016"
  /\ format_08X 0x123456789 = "123456789"
  /\ format_08X (-5) = "-0000005".
Proof. repeat split. Qed.

(** ** The tables are what the methods do *)

Lemma entropy_pool_observe (h : Host) (lo hi : Z) :
  observe (entropy_pool lo hi) h = entropy_pool_table h lo hi.
Proof.
  unfold observe, outcome_of, trace_of, run, entropy_pool, entropy_pool_table,
    _check_range, os_urandom, struct_unpack_Q, bind, lift, emit, ask, raise.
  destruct (lo >=? hi) eqn:Hr; [reflexivity |].
  cbn. destruct (urandom_error h) as [e |]; [reflexivity |].
  cbn. rewrite Z.geb_leb in Hr. apply Z.leb_gt in Hr.
  rewrite (map_returns _ lo hi Hr). reflexivity.
Qed.

Lemma crypto_api_observe (h : Host) (lo hi : Z) :
  observe (crypto_api lo hi) h = crypto_api_table h lo hi.
Proof.
  unfold observe, outcome_of, trace_of, run, crypto_api, crypto_api_table,
    windows, py_platform_system, _check_range, try_finally,
    advapi32_CryptAcquireContextW, advapi32_CryptGenRandom,
    advapi32_CryptReleaseContext, kernel32_GetLastError, struct_unpack_Q,
    bind, lift, emit, ask, raise.
  cbn.
  destruct (platform_system h =? "Windows")%string; cbn; [| reflexivity].
  destruct (lo >=? hi) eqn:Hr; cbn; [reflexivity |].
  destruct (CryptAcquireContextW_ret h =? 0); cbn; [reflexivity |].
  destruct (CryptGenRandom_ret h =? 0); cbn; [reflexivity |].
  rewrite Z.geb_leb in Hr. apply Z.leb_gt in Hr.
  rewrite (map_returns _ lo hi Hr). reflexivity.
Qed.

Lemma count_steps_snoc (tr : list Event) (addr : Z) :
  count_steps (tr ++ [Ev_rdrand64_step addr]) = S (count_steps tr).
Proof.
  unfold count_steps, count. rewrite filter_app, length_app. cbn. lia.
Qed.

Lemma repeat_snoc_app {A} (l : list A) (a : A) (k : nat) :
  (l ++ [a]) ++ repeat a k = l ++ repeat a (S k).
Proof. rewrite <- app_assoc. reflexivity. Qed.

(** One attempt: the stub's answer lands in the cell, the trace grows by
    one call, and success leaves the loop with the mapped cell. *)
Lemma rdrand_attempt_run (h : Host) (addr lo hi : Z) (s : State) :
  lo < hi ->
  rdrand_attempt addr lo hi h s =
  (Return (if fst (rdrand_hw h (count_steps (trace s)))
           then Some (lo + (snd (rdrand_hw h (count_steps (trace s))) mod 2 ^ 64)
                           mod (hi - lo + 1))
           else None),
   {| trace := trace s ++ [Ev_rdrand64_step addr];
      result_cell := snd (rdrand_hw h (count_steps (trace s))) mod 2 ^ 64 |}).
Proof.
  intros Hlt.
  unfold rdrand_attempt, bind, call_rdrand64_step, result_value, lift, ret.
  destruct (rdrand_hw h (count_steps (trace s))) as [cf v]. cbn.
  destruct cf; [| reflexivity].
  rewrite (map_returns _ lo hi Hlt). reflexivity.
Qed.

(** The retry loop, from any state: it stops at the first attempt with
    CF=1 and maps that attempt's value, or runs out after [n] attempts. *)
Lemma for_range_attempts (h : Host) (addr lo hi : Z) :
  lo < hi ->
  forall (n : nat) (s : State),
    let r := for_range n (rdrand_attempt addr lo hi) h s in
    match first_success (rdrand_hw h) (count_steps (trace s)) n with
    | Some (k, v) =>
        fst r = Return (Some (lo + (v mod 2 ^ 64) mod (hi - lo + 1)))
        /\ trace (snd r) = trace s ++ repeat (Ev_rdrand64_step addr) k
    | None =>
        fst r = Return None
        /\ trace (snd r) = trace s ++ repeat (Ev_rdrand64_step addr) n
    end.
Proof.
  intros Hlt n. induction n as [| n IH]; intros s r; subst r.
  - cbn. rewrite app_nil_r. split; reflexivity.
  - cbn [for_range first_success]. unfold bind.
    rewrite (rdrand_attempt_run h addr lo hi s Hlt).
    destruct (fst (rdrand_hw h (count_steps (trace s)))).
    + cbn. split; reflexivity.
    + set (s1 := {| trace := trace s ++ [Ev_rdrand64_step addr];
                    result_cell := _ |}).
      specialize (IH s1). cbn zeta in IH.
      replace (count_steps (trace s1)) with (S (count_steps (trace s))) in IH
        by (subst s1; symmetry; apply count_steps_snoc).
      destruct (first_success (rdrand_hw h) (S (count_steps (trace s))) n)
        as [[k v'] |];
        destruct IH as [IHo IHt]; (split; [exact IHo |]);
        rewrite IHt; subst s1; cbn; apply repeat_snoc_app.
Qed.

Lemma supports_rdrand_run (h : Host) (s : State) :
  supports_rdrand h s =
  (Return (rdrand_supported h),
   {| trace := trace s ++ rdrand_probe_trace h; result_cell := result_cell s |}).
Proof.
  unfold supports_rdrand, rdrand_supported, rdrand_probe_trace, windows,
    py_platform_system, kernel32_IsProcessorFeaturePresent,
    _PF_RDRAND_AVAILABLE, bind, emit, ask, ret.
  cbn. destruct (platform_system h =? "Windows")%string; cbn.
  - rewrite <- app_assoc. reflexivity.
  - reflexivity.
Qed.

Lemma make_rdrand_asm_run (h : Host) (s : State) :
  _make_rdrand_asm h s =
  if rdrand_addr h =? 0 then
    (Raise (OSError "VirtualAlloc failed"),
     {| trace := trace s ++ [Ev_VirtualAlloc 13 0x1000 0x40];
        result_cell := result_cell s |})
  else if negb (rdrand_addr h =? VirtualAlloc_ret h) then
    (Raise (OSError (access_violation (rdrand_addr h))),
     {| trace := trace s ++ [Ev_VirtualAlloc 13 0x1000 0x40;
                             Ev_memmove (rdrand_addr h) rdrand_code];
        result_cell := result_cell s |})
  else
    (Return (rdrand_addr h),
     {| trace := trace s ++ [Ev_VirtualAlloc 13 0x1000 0x40;
                             Ev_memmove (rdrand_addr h) rdrand_code];
        result_cell := result_cell s |}).
Proof.
  unfold _make_rdrand_asm, kernel32_VirtualAlloc, ctypes_memmove,
    bind, emit, ask, ret, raise, rdrand_addr.
  cbn. destruct (c_int (VirtualAlloc_ret h) =? 0); cbn; [reflexivity |].
  destruct (c_int (VirtualAlloc_ret h) =? VirtualAlloc_ret h); cbn;
    rewrite <- app_assoc; reflexivity.
Qed.

Lemma observe_intro {A} (m : M A) (h : Host) (o : Outcome A) (tr : list Event) :
  (exists s, m h initial_state = (o, s) /\ trace s = tr) ->
  observe m h = (o, tr).
Proof.
  intros [s [Hrun Htr]]. unfold observe, outcome_of, trace_of, run.
  rewrite Hrun. cbn. now rewrite Htr.
Qed.

Lemma rdrand_observe (h : Host) (lo hi : Z) :
  observe (rdrand lo hi) h = rdrand_table h lo hi.
Proof.
  rewrite (surjective_pairing (rdrand_table h lo hi)).
  apply observe_intro.
  unfold rdrand, rdrand_table.
  unfold bind at 1. rewrite supports_rdrand_run.
  destruct (rdrand_supported h); cbn [negb]; [| eexists; split; reflexivity].
  unfold bind at 1, lift, _check_range.
  destruct (lo >=? hi) eqn:Hr; [eexists; split; reflexivity |].
  rewrite Z.geb_leb in Hr. apply Z.leb_gt in Hr.
  unfold bind at 1. rewrite make_rdrand_asm_run.
  destruct (rdrand_addr h =? 0);
    [eexists; split; [reflexivity | cbn; rewrite <- ?app_assoc; reflexivity] |].
  destruct (rdrand_addr h =? VirtualAlloc_ret h); cbn [negb];
    [| eexists; split; [reflexivity | cbn; rewrite <- ?app_assoc; reflexivity]].
  unfold bind at 1, new_result. unfold bind at 1.
  match goal with
  | |- context [for_range retries ?b h ?s] =>
      pose proof (for_range_attempts h (rdrand_addr h) lo hi Hr retries s) as L;
      cbn zeta in L;
      destruct (for_range retries b h s) as [o s3]
  end.
  cbn [trace initial_state app] in L.
  replace (count_steps (rdrand_probe_trace h ++ _)) with 0%nat in L
    by (unfold rdrand_probe_trace; destruct (windows h); reflexivity).
  destruct (first_success (rdrand_hw h) 0 retries) as [[k v] |];
    cbn [fst snd] in L; destruct L as [Lo Lt]; subst o; cbn [fst snd];
    (eexists; split; [reflexivity |]);
    rewrite Lt; cbn; rewrite <- ?app_assoc; reflexivity.
Qed.

Lemma generate_observe (b : Backend) (h : Host) (lo hi : Z) :
  observe (generate b lo hi) h = table b h lo hi.
Proof.
  destruct b; cbn [generate table].
  - apply entropy_pool_observe.
  - apply crypto_api_observe.
  - apply rdrand_observe.
Qed.

Lemma outcome_of_table (b : Backend) (h : Host) (lo hi : Z) :
  outcome_of (generate b lo hi) h = fst (table b h lo hi).
Proof. now rewrite <- generate_observe. Qed.

Lemma trace_of_table (b : Backend) (h : Host) (lo hi : Z) :
  trace_of (generate b lo hi) h = snd (table b h lo hi).
Proof. now rewrite <- generate_observe. Qed.

(** ** "Attempt k is the first to succeed", in terms of [first_success] *)

Lemma first_success_found (hw : nat -> bool * Z) :
  forall (n start k : nat) (v : Z),
    (1 <= k <= n)%nat ->
    (forall j, (j < k - 1)%nat -> fst (hw (start + j)%nat) = false) ->
    hw (start + (k - 1))%nat = (true, v) ->
    first_success hw start n = Some (k, v).
Proof.
  induction n as [| n IH]; intros start k v Hk Hbefore Hat; [lia |].
  cbn [first_success].
  destruct (Nat.eq_dec k 1) as [-> | Hne].
  - cbn in Hat. rewrite Nat.add_0_r in Hat. rewrite Hat. reflexivity.
  - assert (H0 : fst (hw start) = false).
    { specialize (Hbefore 0%nat). rewrite Nat.add_0_r in Hbefore.
      apply Hbefore. lia. }
    rewrite H0.
    rewrite (IH (S start) (k - 1)%nat v).
    + f_equal. f_equal. lia.
    + lia.
    + intros j Hj. replace (S start + j)%nat with (start + S j)%nat by lia.
      apply Hbefore. lia.
    + replace (S start + (k - 1 - 1))%nat with (start + (k - 1))%nat by lia.
      exact Hat.
Qed.

Lemma first_success_none (hw : nat -> bool * Z) :
  forall (n start : nat),
    (forall j, (j < n)%nat -> fst (hw (start + j)%nat) = false) ->
    first_success hw start n = None.
Proof.
  induction n as [| n IH]; intros start Hall; [reflexivity |].
  cbn [first_success].
  assert (H0 : fst (hw start) = false).
  { specialize (Hall 0%nat). rewrite Nat.add_0_r in Hall. apply Hall. lia. }
  rewrite H0. rewrite IH; [reflexivity |].
  intros j Hj. replace (S start + j)%nat with (start + S j)%nat by lia.
  apply Hall. lia.
Qed.

Lemma first_success_bound (hw : nat -> bool * Z) :
  forall (n start k : nat) (v : Z),
    first_success hw start n = Some (k, v) -> (1 <= k <= n)%nat.
Proof.
  induction n as [| n IH]; intros start k v H; [discriminate |].
  cbn [first_success] in H.
  destruct (fst (hw start)).
  - inversion H. lia.
  - destruct (first_success hw (S start) n) as [[k' v'] |] eqn:E; [| discriminate].
    inversion H. subst. apply IH in E. lia.
Qed.

Lemma count_app (p : Event -> bool) (l1 l2 : list Event) :
  count p (l1 ++ l2) = (count p l1 + count p l2)%nat.
Proof. unfold count. now rewrite filter_app, length_app. Qed.

Lemma count_repeat_step (addr : Z) (k : nat) :
  count is_step (repeat (Ev_rdrand64_step addr) k) = k.
Proof.
  unfold count. induction k as [| k IH]; [reflexivity |].
  cbn. now rewrite IH.
Qed.

Lemma count_repeat_other (p : Event -> bool) (addr : Z) (k : nat) :
  p (Ev_rdrand64_step addr) = false ->
  count p (repeat (Ev_rdrand64_step addr) k) = 0%nat.
Proof.
  intros Hp. unfold count. induction k as [| k IH]; [reflexivity |].
  cbn. now rewrite Hp.
Qed.

Lemma count_probe_trace (p : Event -> bool) (h : Host) :
  p Ev_platform_system = false ->
  p (Ev_IsProcessorFeaturePresent 33) = false ->
  count p (rdrand_probe_trace h) = 0%nat.
Proof.
  intros H1 H2. unfold rdrand_probe_trace, count.
  destruct (windows h); cbn; rewrite H1; [rewrite H2 |]; reflexivity.
Qed.

(** ** Invalid ranges *)

(** On a Linux host the CryptoAPI back-end turns the call (5, 5) away with
    its platform error; the invalid range is never looked at. *)
Lemma invalid_range_not_always_ValueError :
  5 >= 5
  /\ outcome_of (generate CryptoAPI 5 5) linux_host
     = Raise (OSError "CryptGenRandom is Windows‑only")
  /\ outcome_of (generate CryptoAPI 5 5) linux_host
     <> Raise (ValueError "min must be < max").
Proof.
  split; [lia |]. split; [reflexivity |]. discriminate.
Qed.

(** C2 (amended). For every back-end and every lo >= hi the call fails
    without any entropy being asked for: no urandom read, no provider
    context or CryptGenRandom call, no executable memory, no RDRAND
    attempt; only read-only platform queries are made.  The error is
    ValueError when the back-end's platform gate lets the call through
    (always for the entropy pool) and the back-end's OSError otherwise. *)
Theorem invalid_range_fails_before_entropy (b : Backend) (h : Host) (lo hi : Z) :
  lo >= hi ->
  outcome_of (generate b lo hi) h
  = (if probe_value b h then Raise (ValueError "min must be < max")
     else Raise (OSError (unsupported_message b)))
  /\ count is_acquisition (trace_of (generate b lo hi) h) = 0%nat
  /\ forallb is_query (trace_of (generate b lo hi) h) = true.
Proof.
  intros Hge.
  rewrite outcome_of_table, trace_of_table.
  assert (Hr : (lo >=? hi) = true) by (apply Z.geb_le; lia).
  destruct b; cbn [table probe_value unsupported_message].
  - unfold entropy_pool_table. rewrite Hr. repeat split.
  - unfold crypto_api_table. destruct (windows h); cbn [negb].
    + rewrite Hr. repeat split.
    + repeat split.
  - unfold rdrand_table, rdrand_probe_trace, rdrand_supported.
    destruct (windows h); cbn [andb negb].
    + destruct (IsProcessorFeaturePresent h _PF_RDRAND_AVAILABLE =? 0); cbn [negb].
      * repeat split.
      * rewrite Hr. repeat split.
    + repeat split.
Qed.

Lemma invalid_range_fails_before_entropy_witness :
  outcome_of (generate RDRAND 9 3) (windows_host 1)
  = Raise (ValueError "min must be < max")
  /\ count is_acquisition (trace_of (generate RDRAND 9 3) (windows_host 1)) = 0%nat
  /\ forallb is_query (trace_of (generate RDRAND 9 3) (windows_host 1)) = true.
Proof.
  apply (invalid_range_fails_before_entropy RDRAND (windows_host 1) 9 3). lia.
Defined.

(** ** The hardware-instruction back-end *)

Lemma rdrand_steps_at_most_retries (h : Host) (lo hi : Z) :
  (count_steps (trace_of (rdrand lo hi) h) <= retries)%nat.
Proof.
  change (rdrand lo hi) with (generate RDRAND lo hi).
  rewrite trace_of_table. cbn [table]. unfold rdrand_table, count_steps.
  assert (Hp : count is_step (rdrand_probe_trace h) = 0%nat)
    by (apply count_probe_trace; reflexivity).
  destruct (negb (rdrand_supported h)); cbn [snd]; [lia |].
  destruct (lo >=? hi); cbn [snd]; [lia |].
  destruct (rdrand_addr h =? 0); cbn [snd].
  - rewrite count_app, Hp. cbn. lia.
  - destruct (negb (rdrand_addr h =? VirtualAlloc_ret h)); cbn [snd].
    + rewrite count_app, Hp. cbn. lia.
    + destruct (first_success (rdrand_hw h) 0 retries) as [[k v] |] eqn:E;
        cbn [snd]; rewrite !count_app, Hp, count_repeat_step; cbn.
      * apply first_success_bound in E. lia.
      * lia.
Qed.

Lemma c_int_small (v : Z) : - 2 ^ 31 <= v < 2 ^ 31 -> c_int v = v.
Proof. intros Hv. unfold c_int. rewrite Z.mod_small by lia. lia. Qed.

(** A pointer below 2^31 is read back whole. *)
Lemma small_pointer_installed (h : Host) :
  0 < VirtualAlloc_ret h < 2 ^ 31 -> stub_installed h = true.
Proof.
  intros Hp. unfold stub_installed, rdrand_addr.
  rewrite c_int_small by lia.
  rewrite Z.eqb_refl. destruct (VirtualAlloc_ret h =? 0) eqn:E; [| reflexivity].
  apply Z.eqb_eq in E. lia.
Qed.

Lemma stub_installed_cases (h : Host) :
  stub_installed h = true ->
  (rdrand_addr h =? 0) = false /\ (rdrand_addr h =? VirtualAlloc_ret h) = true.
Proof.
  unfold stub_installed. intros H. apply andb_true_iff in H. destruct H as [H1 H2].
  apply negb_true_iff in H1. split; assumption.
Qed.

Lemma rdrand_table_ready (h : Host) (lo hi : Z) :
  rdrand_supported h = true -> lo < hi -> stub_installed h = true ->
  rdrand_table h lo hi =
  let setup := rdrand_probe_trace h
               ++ [Ev_VirtualAlloc 13 0x1000 0x40;
                   Ev_memmove (rdrand_addr h) rdrand_code] in
  match first_success (rdrand_hw h) 0 retries with
  | Some (k, v) =>
      (Return (lo + (v mod 2 ^ 64) mod (hi - lo + 1)),
       setup ++ repeat (Ev_rdrand64_step (rdrand_addr h)) k)
  | None =>
      (Raise (RuntimeError "RDRAND returned CF=0 ten times"),
       setup ++ repeat (Ev_rdrand64_step (rdrand_addr h)) retries)
  end.
Proof.
  intros Hs Hlt Ha. unfold rdrand_table. rewrite Hs. cbn [negb].
  destruct (lo >=? hi) eqn:Hr; [apply Z.geb_le in Hr; lia |].
  destruct (stub_installed_cases h Ha) as [E0 E1]. rewrite E0, E1.
  reflexivity.
Qed.

Lemma count_steps_setup (h : Host) (k : nat) :
  count_steps ((rdrand_probe_trace h
                ++ [Ev_VirtualAlloc 13 0x1000 0x40;
                    Ev_memmove (rdrand_addr h) rdrand_code])
               ++ repeat (Ev_rdrand64_step (rdrand_addr h)) k) = k.
Proof.
  unfold count_steps. rewrite !count_app, count_repeat_step.
  rewrite count_probe_trace by reflexivity. reflexivity.
Qed.

(** C3. On a host where the RDRAND back-end is available, the range is
    valid and the stub gets built (the pointer VirtualAlloc returns is
    non-NULL and survives the c_int reading of line 121, so that memmove
    writes into the block), a call runs the stub at most 10 times.  If
    attempt k <= 10 is the first to come back with the success flag set,
    the stub has been run exactly k times and the call returns the range
    mapper applied to the 64-bit value of attempt k, unchanged; if all 10
    attempts come back with the flag clear, the stub has been run exactly
    10 times and the call raises RuntimeError("RDRAND returned CF=0 ten
    times"). *)
Theorem rdrand_retry_budget (h : Host) (lo hi : Z) :
  rdrand_supported h = true ->
  lo < hi ->
  stub_installed h = true ->
  (count_steps (trace_of (rdrand lo hi) h) <= 10)%nat
  /\ (forall (k : nat) (v : Z),
         (1 <= k <= 10)%nat ->
         (forall j, (j < k - 1)%nat -> fst (rdrand_hw h j) = false) ->
         rdrand_hw h (k - 1) = (true, v) ->
         0 <= v < 2 ^ 64 ->
         outcome_of (rdrand lo hi) h = _map v lo hi
         /\ outcome_of (rdrand lo hi) h = Return (lo + v mod (hi - lo + 1))
         /\ count_steps (trace_of (rdrand lo hi) h) = k)
  /\ ((forall j, (j < 10)%nat -> fst (rdrand_hw h j) = false) ->
      outcome_of (rdrand lo hi) h
      = Raise (RuntimeError "RDRAND returned CF=0 ten times")
      /\ count_steps (trace_of (rdrand lo hi) h) = 10%nat).
Proof.
  intros Hs Hlt Ha.
  split; [apply rdrand_steps_at_most_retries |].
  change (rdrand lo hi) with (generate RDRAND lo hi).
  rewrite outcome_of_table, trace_of_table. cbn [table].
  rewrite (rdrand_table_ready h lo hi Hs Hlt Ha). cbn zeta.
  split.
  - intros k v Hk Hbefore Hat Hv.
    rewrite (first_success_found (rdrand_hw h) retries 0 k v Hk Hbefore Hat).
    cbn [fst snd]. rewrite (Z.mod_small v (2 ^ 64)) by exact Hv.
    rewrite (map_returns v lo hi Hlt).
    repeat split. apply count_steps_setup.
  - intros Hall.
    rewrite (first_success_none (rdrand_hw h) retries 0 Hall).
    cbn [fst snd]. split; [reflexivity |]. apply count_steps_setup.
Qed.

Lemma rdrand_retry_budget_witness :
  outcome_of (rdrand 1 100) (windows_host 7) = Return (1 + 1007 mod (100 - 1 + 1))
  /\ count_steps (trace_of (rdrand 1 100) (windows_host 7)) = 7%nat.
Proof.
  assert (Hs : rdrand_supported (windows_host 7) = true) by reflexivity.
  assert (Hlt : 1 < 100) by lia.
  assert (Ha : stub_installed (windows_host 7) = true) by reflexivity.
  destruct (rdrand_retry_budget (windows_host 7) 1 100 Hs Hlt Ha) as [_ [Hfirst _]].
  destruct (Hfirst 7%nat 1007) as [_ [Ho Hc]].
  - lia.
  - intros j Hj. do 6 (destruct j as [| j]; [reflexivity |]). lia.
  - reflexivity.
  - lia.
  - split; [exact Ho | exact Hc].
Defined.

(** ** The platform crypto API back-end *)

Lemma crypto_api_table_windows (h : Host) (lo hi : Z) :
  windows h = true -> lo < hi ->
  crypto_api_table h lo hi =
  if CryptAcquireContextW_ret h =? 0 then
    (Raise (OSError ("CryptAcquireContextW failed (0x"
                     ++ format_08X (GetLastError_ret h) ++ ")")),
     [Ev_platform_system; Ev_CryptAcquireContextW 1 0xF0000000; Ev_GetLastError])
  else if CryptGenRandom_ret h =? 0 then
    (Raise (OSError ("CryptGenRandom failed (0x"
                     ++ format_08X (GetLastError_ret h) ++ ")")),
     [Ev_platform_system; Ev_CryptAcquireContextW 1 0xF0000000;
      Ev_CryptGenRandom (CryptAcquireContextW_handle h) 8; Ev_GetLastError;
      Ev_CryptReleaseContext (CryptAcquireContextW_handle h) 0])
  else
    (Return (lo + genrandom_u64 h mod (hi - lo + 1)),
     [Ev_platform_system; Ev_CryptAcquireContextW 1 0xF0000000;
      Ev_CryptGenRandom (CryptAcquireContextW_handle h) 8;
      Ev_CryptReleaseContext (CryptAcquireContextW_handle h) 0]).
Proof.
  intros Hw Hlt. unfold crypto_api_table. rewrite Hw. cbn [negb].
  destruct (lo >=? hi) eqn:Hr; [apply Z.geb_le in Hr; lia | reflexivity].
Qed.

Lemma crypto_api_release_2025 (h : Host) (lo hi : Z) :
  windows h = true ->
  lo < hi ->
  (CryptAcquireContextW_ret h = 0 ->
     outcome_of (crypto_api lo hi) h
     = Raise (OSError ("CryptAcquireContextW failed (0x"
                       ++ format_08X (GetLastError_ret h) ++ ")"))
     /\ count is_release (trace_of (crypto_api lo hi) h) = 0%nat)
  /\ (CryptAcquireContextW_ret h <> 0 ->
      count is_release (trace_of (crypto_api lo hi) h) = 1%nat
      /\ last (trace_of (crypto_api lo hi) h) Ev_platform_system
         = Ev_CryptReleaseContext (CryptAcquireContextW_handle h) 0
      /\ (CryptGenRandom_ret h = 0 ->
          outcome_of (crypto_api lo hi) h
          = Raise (OSError ("CryptGenRandom failed (0x"
                            ++ format_08X (GetLastError_ret h) ++ ")")))
      /\ (CryptGenRandom_ret h <> 0 ->
          outcome_of (crypto_api lo hi) h
          = Return (lo + genrandom_u64 h mod (hi - lo + 1)))).
Proof.
  intros Hw Hlt.
  change (crypto_api lo hi) with (generate CryptoAPI lo hi).
  rewrite outcome_of_table, trace_of_table. cbn [table].
  rewrite (crypto_api_table_windows h lo hi Hw Hlt).
  split.
  - intros Hacq. rewrite Hacq. cbn. split; reflexivity.
  - intros Hacq.
    destruct (CryptAcquireContextW_ret h =? 0) eqn:E0;
      [apply Z.eqb_eq in E0; contradiction |].
    destruct (CryptGenRandom_ret h =? 0) eqn:E1; cbn [fst snd].
    + apply Z.eqb_eq in E1. repeat split. intros Hne. contradiction.
    + apply Z.eqb_neq in E1. repeat split. intros He. contradiction.
Qed.

(** The archived CryptoAPI generator of the GUI class follows the same
    discipline with explicit release calls on its two paths. *)
Lemma crypto_api_release_2024 (h : Host) (lo hi : Z) :
  windows h = true ->
  let g := Archive.RandomNumberGeneratorGUI.generate_crypto_hardware_random lo hi in
  (CryptAcquireContextW_ret h = 0 ->
     outcome_of g h
     = Raise (OSError ("Failed to acquire cryptographic context on Windows, error code: "
                       ++ Archive.format_int (GetLastError_ret h)))
     /\ count is_release (trace_of g h) = 0%nat)
  /\ (CryptAcquireContextW_ret h <> 0 ->
      count is_release (trace_of g h) = 1%nat
      /\ last (trace_of g h) Ev_platform_system
         = Ev_CryptReleaseContext (CryptAcquireContextW_handle h) 0
      /\ (CryptGenRandom_ret h = 0 ->
          outcome_of g h
          = Raise (OSError ("Failed to generate random number on Windows, error code: "
                            ++ Archive.format_int (GetLastError_ret h))))).
Proof.
  intros Hw g. subst g.
  unfold outcome_of, trace_of, run,
    Archive.RandomNumberGeneratorGUI.generate_crypto_hardware_random,
    Archive.ctypes_windll, advapi32_CryptAcquireContextW, advapi32_CryptGenRandom,
    advapi32_CryptReleaseContext, kernel32_GetLastError, bind, emit, ask, raise, ret.
  unfold windows in Hw. rewrite Hw. cbn.
  split.
  - intros Hacq. rewrite Hacq. cbn. split; reflexivity.
  - intros Hacq.
    destruct (CryptAcquireContextW_ret h =? 0) eqn:E0;
      [apply Z.eqb_eq in E0; contradiction |].
    cbn. destruct (CryptGenRandom_ret h =? 0) eqn:E1; cbn.
    + repeat split.
    + apply Z.eqb_neq in E1. repeat split. intros He. contradiction.
Qed.

(** C4. In the CryptoAPI back-end (Windows host, valid range): when
    CryptAcquireContextW fails, the call raises the OSError whose message
    carries GetLastError's code, and CryptReleaseContext is never called;
    when it succeeds, CryptReleaseContext is called exactly once, on the
    acquired handle, whether CryptGenRandom then succeeds or fails, and it
    is the last foreign call made before the CryptGenRandom OSError reaches
    the caller.  This holds for [crypto_api] of random_number_2025.py and
    for the archived GUI method generate_crypto_hardware_random. *)
Theorem crypto_api_release_discipline (h : Host) (lo hi : Z) :
  windows h = true ->
  lo < hi ->
  let g := Archive.RandomNumberGeneratorGUI.generate_crypto_hardware_random lo hi in
  ((CryptAcquireContextW_ret h = 0 ->
      outcome_of (crypto_api lo hi) h
      = Raise (OSError ("CryptAcquireContextW failed (0x"
                        ++ format_08X (GetLastError_ret h) ++ ")"))
      /\ count is_release (trace_of (crypto_api lo hi) h) = 0%nat)
   /\ (CryptAcquireContextW_ret h <> 0 ->
       count is_release (trace_of (crypto_api lo hi) h) = 1%nat
       /\ last (trace_of (crypto_api lo hi) h) Ev_platform_system
          = Ev_CryptReleaseContext (CryptAcquireContextW_handle h) 0
       /\ (CryptGenRandom_ret h = 0 ->
           outcome_of (crypto_api lo hi) h
           = Raise (OSError ("CryptGenRandom failed (0x"
                             ++ format_08X (GetLastError_ret h) ++ ")")))
       /\ (CryptGenRandom_ret h <> 0 ->
           outcome_of (crypto_api lo hi) h
           = Return (lo + genrandom_u64 h mod (hi - lo + 1)))))
  /\ ((CryptAcquireContextW_ret h = 0 ->
       outcome_of g h
       = Raise (OSError ("Failed to acquire cryptographic context on Windows, error code: "
                         ++ Archive.format_int (GetLastError_ret h)))
       /\ count is_release (trace_of g h) = 0%nat)
      /\ (CryptAcquireContextW_ret h <> 0 ->
          count is_release (trace_of g h) = 1%nat
          /\ last (trace_of g h) Ev_platform_system
             = Ev_CryptReleaseContext (CryptAcquireContextW_handle h) 0
          /\ (CryptGenRandom_ret h = 0 ->
              outcome_of g h
              = Raise (OSError ("Failed to generate random number on Windows, error code: "
                                ++ Archive.format_int (GetLastError_ret h)))))).
Proof.
  intros Hw Hlt g. split.
  - exact (crypto_api_release_2025 h lo hi Hw Hlt).
  - exact (crypto_api_release_2024 h lo hi Hw).
Qed.

Lemma crypto_api_release_discipline_witness :
  outcome_of (crypto_api 1 100) (with_genrandom_failure 31 (windows_host 1))
  = Raise (OSError "CryptGenRandom failed (0x0000001F)")
  /\ count is_release
       (trace_of (crypto_api 1 100) (with_genrandom_failure 31 (windows_host 1)))
     = 1%nat.
Proof.
  assert (Hw : windows (with_genrandom_failure 31 (windows_host 1)) = true)
    by reflexivity.
  assert (Hlt : 1 < 100) by lia.
  destruct (crypto_api_release_discipline
              (with_genrandom_failure 31 (windows_host 1)) 1 100 Hw Hlt)
    as [[_ Hacquired] _].
  destruct Hacquired as [Hc [_ [Hfail _]]].
  - cbn. lia.
  - split; [apply Hfail; reflexivity | exact Hc].
Defined.

(** ** Capability probes *)

Lemma supports_crypto_api_run (h : Host) (s : State) :
  supports_crypto_api h s =
  (Return (windows h),
   {| trace := trace s ++ [Ev_platform_system]; result_cell := result_cell s |}).
Proof. reflexivity. Qed.

Lemma windows_iff (h : Host) :
  windows h = true <-> platform_system h = "Windows".
Proof. unfold windows. apply String.eqb_eq. Qed.

(** The probes answer from the host description alone and leave the
    interpreter state as it was, apart from the read-only platform queries
    they add to the trace: [supports_entropy] answers True on every host;
    [supports_crypto_api] answers True exactly when platform.system() is
    "Windows"; [supports_rdrand] answers True exactly when the system is
    Windows (the system that has the CPU-feature query) and
    IsProcessorFeaturePresent reports the feature [_PF_RDRAND_AVAILABLE],
    and False otherwise, without allocating or running the stub. *)
Theorem capability_probes (b : Backend) (h : Host) (s : State) :
  (exists queries,
      is_supported b h s
      = (Return (probe_value b h),
         {| trace := trace s ++ queries; result_cell := result_cell s |})
      /\ forallb is_query queries = true
      /\ count is_acquisition queries = 0%nat)
  /\ probe_value EntropyPool h = true
  /\ (probe_value CryptoAPI h = true <-> platform_system h = "Windows")
  /\ (probe_value RDRAND h = true <->
      platform_system h = "Windows"
      /\ IsProcessorFeaturePresent h _PF_RDRAND_AVAILABLE <> 0).
Proof.
  split; [| split; [reflexivity | split]].
  - destruct b; cbn [is_supported probe_value].
    + exists []. destruct s as [tr cell]. cbn. rewrite app_nil_r. repeat split.
    + exists [Ev_platform_system]. rewrite supports_crypto_api_run. repeat split.
    + exists (rdrand_probe_trace h). rewrite supports_rdrand_run.
      split; [reflexivity |].
      unfold rdrand_probe_trace. destruct (windows h); split; reflexivity.
  - cbn [probe_value]. apply windows_iff.
  - cbn [probe_value]. unfold rdrand_supported.
    rewrite andb_true_iff, negb_true_iff, Z.eqb_neq, windows_iff. reflexivity.
Qed.

(** C5. The claim asks [supports_rdrand] to answer True exactly when the
    feature query reports the hardware-RNG instruction.  The method asks
    for feature 33, which line 35 comments as
    PF_RDRAND_INSTRUCTION_AVAILABLE but which is PF_RDPID in winnt.h, where
    RDRAND is 28.  On a Windows host whose processor has RDRAND and not
    RDPID it answers False, and [rdrand] turns the call away as
    unsupported; on one with RDPID and not RDRAND it answers True. *)
Theorem supports_rdrand_asks_feature_33 :
  _PF_RDRAND_AVAILABLE = PF_RDPID_INSTRUCTION_AVAILABLE
  /\ _PF_RDRAND_AVAILABLE <> PF_RDRAND_INSTRUCTION_AVAILABLE
  /\ observe supports_rdrand
             (with_features [PF_RDRAND_INSTRUCTION_AVAILABLE] (windows_host 1))
     = (Return false, [Ev_platform_system; Ev_IsProcessorFeaturePresent 33])
  /\ outcome_of (rdrand 1 100)
                (with_features [PF_RDRAND_INSTRUCTION_AVAILABLE] (windows_host 1))
     = Raise (OSError "RDRAND not supported on this CPU/OS")
  /\ observe supports_rdrand
             (with_features [PF_RDPID_INSTRUCTION_AVAILABLE] (windows_host 1))
     = (Return true, [Ev_platform_system; Ev_IsProcessorFeaturePresent 33]).
Proof.
  split; [reflexivity |]. split; [discriminate |].
  split; [reflexivity |]. split; reflexivity.
Qed.

(** ** Draw or error, for every back-end *)



(** ** No substitution of one source for another *)






(** ** Executable memory *)

Lemma rdrand_alloc_at_most_once (h : Host) (lo hi : Z) :
  (count is_alloc (trace_of (rdrand lo hi) h) <= 1)%nat.
Proof.
  change (rdrand lo hi) with (generate RDRAND lo hi).
  rewrite trace_of_table. cbn [table]. unfold rdrand_table.
  assert (Hp : count is_alloc (rdrand_probe_trace h) = 0%nat)
    by (apply count_probe_trace; reflexivity).
  destruct (negb (rdrand_supported h)); cbn [snd]; [lia |].
  destruct (lo >=? hi); cbn [snd]; [lia |].
  destruct (rdrand_addr h =? 0); cbn [snd].
  - rewrite count_app, Hp. cbn. lia.
  - destruct (negb (rdrand_addr h =? VirtualAlloc_ret h)); cbn [snd];
      [rewrite count_app, Hp; cbn; lia |].
    destruct (first_success (rdrand_hw h) 0 retries) as [[k v] |]; cbn [snd];
      rewrite !count_app, Hp, count_repeat_other by reflexivity; cbn; lia.
Qed.

(** C8. In a call of the RDRAND back-end that reaches the hardware path
    (back-end available, valid range), VirtualAlloc is called exactly
    once, and before every run of the stub; if it returns NULL the call
    raises OSError("VirtualAlloc failed") with the stub never run and no
    second allocation.  On no host is VirtualAlloc called more than once
    per call. *)
Theorem rdrand_allocation (h : Host) (lo hi : Z) :
  rdrand_supported h = true ->
  lo < hi ->
  count is_alloc (trace_of (rdrand lo hi) h) = 1%nat
  /\ (exists before after,
         trace_of (rdrand lo hi) h
         = before ++ Ev_VirtualAlloc 13 0x1000 0x40 :: after
         /\ count is_step before = 0%nat
         /\ count is_alloc before = 0%nat
         /\ count is_alloc after = 0%nat)
  /\ (VirtualAlloc_ret h = 0 ->
      outcome_of (rdrand lo hi) h = Raise (OSError "VirtualAlloc failed")
      /\ count is_step (trace_of (rdrand lo hi) h) = 0%nat)
  /\ (forall h' lo' hi', (count is_alloc (trace_of (rdrand lo' hi') h') <= 1)%nat).
Proof.
  intros Hs Hlt.
  assert (Hp : forall p, p Ev_platform_system = false ->
                         p (Ev_IsProcessorFeaturePresent 33) = false ->
                         count p (rdrand_probe_trace h) = 0%nat)
    by (intros p; apply count_probe_trace).
  assert (Hr : (lo >=? hi) = false).
  { destruct (lo >=? hi) eqn:E; [apply Z.geb_le in E; lia | reflexivity]. }
  split; [| split; [| split]].
  4: exact rdrand_alloc_at_most_once.
  all: change (rdrand lo hi) with (generate RDRAND lo hi);
    rewrite ?outcome_of_table, ?trace_of_table; cbn [table];
    unfold rdrand_table; rewrite Hs, Hr; cbn [negb].
  - destruct (rdrand_addr h =? 0); cbn [snd].
    + rewrite count_app, Hp by reflexivity. reflexivity.
    + destruct (negb (rdrand_addr h =? VirtualAlloc_ret h)); cbn [snd];
        [rewrite count_app, Hp by reflexivity; reflexivity |].
      destruct (first_success (rdrand_hw h) 0 retries) as [[k v] |]; cbn [snd];
        rewrite !count_app, Hp, count_repeat_other by reflexivity; reflexivity.
  - exists (rdrand_probe_trace h).
    destruct (rdrand_addr h =? 0); cbn [snd].
    + exists []. repeat split; apply Hp; reflexivity.
    + destruct (negb (rdrand_addr h =? VirtualAlloc_ret h)); cbn [snd].
      * exists [Ev_memmove (rdrand_addr h) rdrand_code].
        repeat split; try (apply Hp; reflexivity).
      * destruct (first_success (rdrand_hw h) 0 retries) as [[k v] |]; cbn [snd].
        -- exists (Ev_memmove (rdrand_addr h) rdrand_code
                   :: repeat (Ev_rdrand64_step (rdrand_addr h)) k).
           rewrite <- app_assoc. cbn [app].
           repeat split; try (apply Hp; reflexivity).
           all: change (Ev_memmove ?a ?c :: ?l) with ([Ev_memmove a c] ++ l);
             rewrite count_app, count_repeat_other by reflexivity; reflexivity.
        -- exists (Ev_memmove (rdrand_addr h) rdrand_code
                   :: repeat (Ev_rdrand64_step (rdrand_addr h)) retries).
           rewrite <- app_assoc. cbn [app].
           repeat split; try (apply Hp; reflexivity).
           all: change (Ev_memmove ?a ?c :: ?l) with ([Ev_memmove a c] ++ l);
             rewrite count_app, count_repeat_other by reflexivity; reflexivity.
  - intros Ha. unfold rdrand_addr. rewrite Ha.
    replace (c_int 0) with 0 by reflexivity.
    cbn [Z.eqb fst snd]. split; [reflexivity |].
    rewrite count_app, Hp by reflexivity. reflexivity.
Qed.

Lemma rdrand_allocation_witness :
  outcome_of (rdrand 1 100) (with_alloc_failure (windows_host 1))
  = Raise (OSError "VirtualAlloc failed")
  /\ count is_alloc (trace_of (rdrand 1 100) (with_alloc_failure (windows_host 1)))
     = 1%nat
  /\ count is_step (trace_of (rdrand 1 100) (with_alloc_failure (windows_host 1)))
     = 0%nat.
Proof.
  assert (Hs : rdrand_supported (with_alloc_failure (windows_host 1)) = true)
    by reflexivity.
  assert (Hlt : 1 < 100) by lia.
  destruct (rdrand_allocation (with_alloc_failure (windows_host 1)) 1 100 Hs Hlt)
    as [Hone [_ [Hfail _]]].
  destruct (Hfail eq_refl) as [Ho Hc].
  repeat split; assumption.
Defined.

(** ** Order of the checks *)

(** C10. In [crypto_api] and in [rdrand] the platform gate comes before
    the range check: on a host where the back-end is not available, a call
    with lo >= hi raises the back-end's OSError, not the ValueError of the
    range check. *)
Theorem support_check_precedes_range_check (h : Host) (lo hi : Z) :
  lo >= hi ->
  (windows h = false ->
   outcome_of (crypto_api lo hi) h = Raise (OSError "CryptGenRandom is Windows‑only")
   /\ outcome_of (crypto_api lo hi) h <> Raise (ValueError "min must be < max"))
  /\ (rdrand_supported h = false ->
      outcome_of (rdrand lo hi) h
      = Raise (OSError "RDRAND not supported on this CPU/OS")
      /\ outcome_of (rdrand lo hi) h <> Raise (ValueError "min must be < max")).
Proof.
  intros _. split.
  - intros Hw. change (crypto_api lo hi) with (generate CryptoAPI lo hi).
    rewrite outcome_of_table. cbn [table]. unfold crypto_api_table.
    rewrite Hw. cbn. split; [reflexivity | discriminate].
  - intros Hs. change (rdrand lo hi) with (generate RDRAND lo hi).
    rewrite outcome_of_table. cbn [table]. unfold rdrand_table.
    rewrite Hs. cbn. split; [reflexivity | discriminate].
Qed.

Lemma support_check_precedes_range_check_witness :
  outcome_of (crypto_api 7 7) linux_host
  = Raise (OSError "CryptGenRandom is Windows‑only")
  /\ outcome_of (rdrand 7 7) linux_host
     = Raise (OSError "RDRAND not supported on this CPU/OS").
Proof.
  assert (Hge : 7 >= 7) by lia.
  destruct (support_check_precedes_range_check linux_host 7 7 Hge) as [Hc Hr].
  split; [apply Hc | apply Hr]; reflexivity.
Defined.

(** ** The archived generators *)

Lemma archive_gui_crypto_never_int (h : Host) (lo hi v : Z) :
  outcome_of (Archive.RandomNumberGeneratorGUI.generate_crypto_hardware_random lo hi) h
  <> Return (PyInt v).
Proof.
  unfold outcome_of, run,
    Archive.RandomNumberGeneratorGUI.generate_crypto_hardware_random,
    Archive.ctypes_windll, advapi32_CryptAcquireContextW, advapi32_CryptGenRandom,
    advapi32_CryptReleaseContext, kernel32_GetLastError, bind, emit, ask, raise, ret.
  destruct (platform_system h =? "Windows")%string; cbn; [| discriminate].
  destruct (CryptAcquireContextW_ret h =? 0); cbn; [discriminate |].
  destruct (CryptGenRandom_ret h =? 0); cbn; discriminate.
Qed.

Lemma archive_core_crypto_swallows (h : Host) (lo hi : Z) (e : exn) :
  urandom_error h = Some e ->
  observe (Archive.RandomNumberGenerator.generate_crypto_hardware_random lo hi) h
  = (Return PyNone, [Ev_urandom 8; Ev_print ("Error: " ++ exn_str e)]).
Proof.
  intros He.
  unfold observe, outcome_of, trace_of, run,
    Archive.RandomNumberGenerator.generate_crypto_hardware_random,
    try_except, os_urandom, Archive.py_print, bind, emit, ask, raise, ret.
  cbn. rewrite He. reflexivity.
Qed.

(** C6. The claim asks every generation call with lo < hi to return an
    integer of [lo, hi] or to raise.  Two archived generators do neither:
    the GUI method generate_crypto_hardware_random(1, 100), on a Windows
    host where the provider context is acquired and CryptGenRandom
    succeeds, releases the context and returns None; the core method
    generate_crypto_hardware_random(1, 100), when os.urandom raises,
    prints the error and returns None. *)
Theorem archive_crypto_generators_return_None :
  observe (Archive.RandomNumberGeneratorGUI.generate_crypto_hardware_random 1 100)
          (windows_host 1)
  = (Return PyNone,
     [Ev_CryptAcquireContextW 1 0xF0000000; Ev_CryptGenRandom 0x5150 8;
      Ev_CryptReleaseContext 0x5150 0])
  /\ observe (Archive.RandomNumberGenerator.generate_crypto_hardware_random 1 100)
             (with_urandom_failure (NotImplementedError "no randomness source")
                                   linux_host)
     = (Return PyNone, [Ev_urandom 8; Ev_print "Error: no randomness source"]).
Proof. split; reflexivity. Qed.

(** X15. The archived AMD generator, whenever its first RDRAND block fails on a
    Windows host (stub result other than SECRNG_SUCCESS, or no executable
    memory): the failure is logged, CryptGenRandom is called on a NULL
    handle, and the call returns a value mapped from that buffer. *)
Lemma archive_amd_fallback (h : Host) (lo hi : Z) :
  windows h = true ->
  lo < hi ->
  VirtualAlloc_ret h = 0 \/ fst (amd_stub h 0) <> Archive.SECRNG_SUCCESS ->
  let g := Archive.RandomNumberGeneratorGUI.generate_amd_hardware_random lo hi in
  In (Ev_CryptGenRandom 0 8) (trace_of g h)
  /\ exists v, outcome_of g h = Return (PyInt v) /\ lo <= v <= hi.
Proof.
  intros Hw Hlt Hfail g. subst g.
  unfold outcome_of, trace_of, run,
    Archive.RandomNumberGeneratorGUI.generate_amd_hardware_random,
    Archive.RandomNumberGeneratorGUI.amd_rdrand_block,
    Archive.RandomNumberGeneratorGUI.amd_cryptgenrandom_block,
    Archive.RandomNumberGeneratorGUI.get_rdrand64u,
    Archive.RandomNumberGeneratorGUI.setup_asm_function,
    Archive.call_amd_stub, Archive.ctypes_windll, Archive.logger_error,
    Archive.scale, Archive.SECRNG_SUCCESS in *.
  unfold try_except, new_result, result_value, kernel32_VirtualAlloc,
    ctypes_memmove, advapi32_CryptGenRandom, struct_unpack_Q, bind, lift,
    emit, ask, raise, ret.
  unfold windows in Hw. rewrite Hw.
  assert (Hmod : forall x, py_mod x (hi - lo + 1) = Return (x mod (hi - lo + 1))).
  { intros x. unfold py_mod.
    destruct (hi - lo + 1 =? 0) eqn:E; [apply Z.eqb_eq in E; lia | reflexivity]. }
  cbn.
  destruct (VirtualAlloc_ret h =? 0) eqn:Ea; cbn.
  - rewrite ?Hw; cbn.
    destruct (CryptGenRandom_ret h =? 0); cbn; rewrite Hmod; cbn;
      (split; [tauto |]); eexists; (split; [reflexivity | now apply map_bounds]).
  - destruct Hfail as [Ha | Hstub]; [rewrite Ha in Ea; discriminate |].
    rewrite Z.eqb_refl. cbn.
    destruct (amd_stub h 0) as [r stored]. cbn in Hstub |- *.
    destruct (r =? 0) eqn:Er; [apply Z.eqb_eq in Er; contradiction |]. cbn.
    rewrite ?Hw; cbn.
    destruct (CryptGenRandom_ret h =? 0); cbn; rewrite Hmod; cbn;
      (split; [tauto |]); eexists; (split; [reflexivity | now apply map_bounds]).
Qed.

(** C7. The claim asks that a failing hardware-instruction call raises
    and touches no other entropy source.  The archived GUI method
    generate_amd_hardware_random(1, 100), on a Windows host whose stub
    answers 1 (not SECRNG_SUCCESS), logs the RuntimeError, calls
    CryptGenRandom on a NULL handle and, that call having filled nothing,
    returns 1 as if it were a draw. *)
Theorem archive_amd_falls_back_to_CryptGenRandom :
  observe (Archive.RandomNumberGeneratorGUI.generate_amd_hardware_random 1 100)
          (with_genrandom_failure 6 (windows_host 1))
  = (Return (PyInt 1),
     [Ev_VirtualAlloc 14 0x1000 0x40;
      Ev_memmove 0x20000 Archive.RandomNumberGeneratorGUI.amd_asm_code;
      Ev_amd_stub 0x20000 10;
      Ev_logger_error
        "Failed to generate random number using AMD RDRAND: AMD RDRAND instruction failed";
      Ev_CryptGenRandom 0 8]).
Proof. reflexivity. Qed.

(** ** More on the range mapper *)

(** X1. For a valid range and a target t in [lo, hi]: the raw value
    t - lo is mapped to t, and the raw values mapped to t are exactly
    those that differ from t - lo by a multiple of the width
    hi - lo + 1. *)
Theorem map_fibres (lo hi t raw : Z) :
  lo < hi ->
  lo <= t <= hi ->
  _map (t - lo) lo hi = Return t
  /\ (_map raw lo hi = Return t <-> exists k, raw = (t - lo) + k * (hi - lo + 1)).
Proof.
  intros Hlt Ht.
  assert (Hw : 0 < hi - lo + 1) by lia.
  split.
  - rewrite (map_returns _ lo hi Hlt). rewrite Z.mod_small by lia. f_equal. lia.
  - rewrite (map_returns _ lo hi Hlt). split.
    + intros H. inversion H as [Heq].
      exists (raw / (hi - lo + 1)).
      pose proof (Z.div_mod raw (hi - lo + 1)). lia.
    + intros [k ->]. f_equal.
      rewrite Z.mod_add by lia. rewrite Z.mod_small by lia. lia.
Qed.

Lemma map_fibres_witness :
  _map (42 - 1) 1 100 = Return 42
  /\ (_map 341 1 100 = Return 42 <-> exists k, 341 = (42 - 1) + k * (100 - 1 + 1)).
Proof.
  apply (map_fibres 1 100 42 341); lia.
Defined.

(** X2. [_map] called without the range check: for lo = hi it returns
    lo whatever the raw value; for hi = lo - 1 the width is zero and it
    raises ZeroDivisionError; for hi < lo - 1 the width is negative and it
    returns a value r with hi + 1 < r <= lo, above hi. *)
Theorem map_without_range_check (v lo hi : Z) :
  (lo = hi -> _map v lo hi = Return lo)
  /\ (hi = lo - 1 ->
      _map v lo hi = Raise (ZeroDivisionError "integer modulo by zero"))
  /\ (hi < lo - 1 -> exists r, _map v lo hi = Return r /\ hi + 1 < r <= lo).
Proof.
  unfold _map, py_mod. repeat split.
  - intros ->. replace (hi - hi + 1) with 1 by lia. cbn.
    rewrite Z.mod_1_r. f_equal. lia.
  - intros ->. replace (lo - 1 - lo + 1) with 0 by lia. reflexivity.
  - intros Hneg.
    destruct (hi - lo + 1 =? 0) eqn:E; [apply Z.eqb_eq in E; lia |].
    eexists. split; [reflexivity |].
    pose proof (Z.mod_neg_bound v (hi - lo + 1)). lia.
Qed.

Lemma map_without_range_check_witness :
  _map 7 5 5 = Return 5
  /\ _map 7 5 4 = Raise (ZeroDivisionError "integer modulo by zero")
  /\ exists r, _map 7 5 1 = Return r /\ 1 + 1 < r <= 5.
Proof.
  destruct (map_without_range_check 7 5 5) as [H1 _].
  destruct (map_without_range_check 7 5 4) as [_ [H2 _]].
  destruct (map_without_range_check 7 5 1) as [_ [_ H3]].
  split; [apply H1; reflexivity |].
  split; [apply H2; reflexivity | apply H3; lia].
Defined.

(** ** The raw value is a 64-bit unsigned integer *)

Lemma le_bytes_bound (bs : list byte) :
  0 <= le_bytes_to_Z bs < 256 ^ Z.of_nat (List.length bs).
Proof.
  induction bs as [| b bs IH].
  - cbn. lia.
  - cbn [le_bytes_to_Z List.length].
    rewrite Nat2Z.inj_succ, Z.pow_succ_r by lia.
    pose proof (Byte.to_N_bounded b) as Hb.
    assert (0 <= Z.of_N (Byte.to_N b) <= 255) by lia.
    lia.
Qed.

Lemma native_u64_bound (h : Host) (bs : list byte) :
  List.length bs = 8%nat -> 0 <= native_u64 h bs < 2 ^ 64.
Proof.
  intros Hlen. unfold native_u64.
  destruct (byteorder_little h).
  - pose proof (le_bytes_bound bs) as H. rewrite Hlen in H. exact H.
  - pose proof (le_bytes_bound (rev bs)) as H.
    rewrite length_rev, Hlen in H. exact H.
Qed.

(** X3. With a valid range, [entropy_pool] (when os.urandom delivers)
    makes one os.urandom(8) call and nothing else, and [crypto_api] (on
    Windows, when the context is acquired and CryptGenRandom succeeds)
    asks the provider for 8 bytes once; in both the value handed to [_map]
    is an unsigned 64-bit integer, whatever the host's byte order. *)
Theorem raw_entropy_is_u64 (h : Host) (lo hi : Z) :
  lo < hi ->
  (urandom_error h = None ->
   trace_of (entropy_pool lo hi) h = [Ev_urandom 8]
   /\ exists raw, 0 <= raw < 2 ^ 64
                  /\ outcome_of (entropy_pool lo hi) h = _map raw lo hi)
  /\ (windows h = true ->
      CryptAcquireContextW_ret h <> 0 ->
      CryptGenRandom_ret h <> 0 ->
      count (fun e => match e with Ev_CryptGenRandom _ 8 => true | _ => false end)
            (trace_of (crypto_api lo hi) h) = 1%nat
      /\ exists raw, 0 <= raw < 2 ^ 64
                     /\ outcome_of (crypto_api lo hi) h = _map raw lo hi).
Proof.
  intros Hlt.
  assert (Hr : (lo >=? hi) = false).
  { destruct (lo >=? hi) eqn:E; [apply Z.geb_le in E; lia | reflexivity]. }
  split.
  - intros Hu.
    change (entropy_pool lo hi) with (generate EntropyPool lo hi).
    rewrite outcome_of_table, trace_of_table. cbn [table].
    unfold entropy_pool_table. rewrite Hr, Hu. cbn [fst snd].
    split; [reflexivity |].
    exists (urandom_u64 h). split.
    + apply native_u64_bound. now rewrite length_map, length_seq.
    + now rewrite (map_returns _ lo hi Hlt).
  - intros Hw Ha Hg.
    change (crypto_api lo hi) with (generate CryptoAPI lo hi).
    rewrite outcome_of_table, trace_of_table. cbn [table].
    rewrite (crypto_api_table_windows h lo hi Hw Hlt).
    apply Z.eqb_neq in Ha, Hg. rewrite Ha, Hg. cbn [fst snd].
    split; [reflexivity |].
    exists (genrandom_u64 h). split.
    + apply native_u64_bound. now rewrite length_map, length_seq.
    + now rewrite (map_returns _ lo hi Hlt).
Qed.

Lemma raw_entropy_is_u64_witness :
  trace_of (entropy_pool 1 100) linux_host = [Ev_urandom 8]
  /\ exists raw, 0 <= raw < 2 ^ 64
                 /\ outcome_of (entropy_pool 1 100) linux_host = _map raw 1 100.
Proof.
  assert (Hlt : 1 < 100) by lia.
  destruct (raw_entropy_is_u64 linux_host 1 100 Hlt) as [Hpool _].
  apply Hpool. reflexivity.
Defined.

(** ** Probes and platform gates agree *)

Lemma is_supported_value (b : Backend) (h : Host) (s : State) :
  fst (is_supported b h s) = Return (probe_value b h).
Proof.
  destruct b; cbn [is_supported probe_value].
  - reflexivity.
  - now rewrite supports_crypto_api_run.
  - now rewrite supports_rdrand_run.
Qed.

Lemma gate_closed (b : Backend) (h : Host) (lo hi : Z) :
  probe_value b h = false ->
  outcome_of (generate b lo hi) h = Raise (OSError (unsupported_message b)).
Proof.
  intros Hp. rewrite outcome_of_table.
  destruct b; cbn [table probe_value unsupported_message] in *.
  - discriminate.
  - unfold crypto_api_table. rewrite Hp. reflexivity.
  - unfold rdrand_table. rewrite Hp. reflexivity.
Qed.

Lemma gate_open (b : Backend) (h : Host) (lo hi : Z) :
  probe_value b h = true ->
  b <> EntropyPool ->
  outcome_of (generate b lo hi) h <> Raise (OSError (unsupported_message b)).
Proof.
  intros Hp Hb. rewrite outcome_of_table.
  destruct b; cbn [table probe_value unsupported_message] in *.
  - contradiction.
  - unfold crypto_api_table. rewrite Hp. cbn [negb].
    destruct (lo >=? hi); [discriminate |].
    destruct (CryptAcquireContextW_ret h =? 0); [cbn; discriminate |].
    destruct (CryptGenRandom_ret h =? 0); cbn; discriminate.
  - unfold rdrand_table. rewrite Hp. cbn [negb].
    destruct (lo >=? hi); [discriminate |].
    destruct (rdrand_addr h =? 0); [discriminate |].
    destruct (negb (rdrand_addr h =? VirtualAlloc_ret h));
      [unfold access_violation; cbn; discriminate |].
    destruct (first_success (rdrand_hw h) 0 retries) as [[k v] |]; discriminate.
Qed.

(** X4. What a capability test answers is what the platform gate of the
    method does: when [supports_crypto_api] or [supports_rdrand] answers
    False, the method raises its "not supported" OSError for every pair
    (lo, hi); when it answers True, the method never raises that error.
    [supports_entropy] never answers False. *)
Theorem probe_agrees_with_gate (b : Backend) (h : Host) (s : State) (lo hi : Z) :
  (fst (is_supported b h s) = Return false ->
   b <> EntropyPool
   /\ outcome_of (generate b lo hi) h = Raise (OSError (unsupported_message b)))
  /\ (fst (is_supported b h s) = Return true ->
      b <> EntropyPool ->
      outcome_of (generate b lo hi) h <> Raise (OSError (unsupported_message b))).
Proof.
  rewrite is_supported_value. split.
  - intros H. inversion H as [Hp]. split.
    + intros ->. discriminate.
    + now apply gate_closed.
  - intros H Hb. inversion H as [Hp]. now apply gate_open.
Qed.

Lemma probe_agrees_with_gate_witness :
  outcome_of (generate RDRAND 1 100) linux_host
  = Raise (OSError "RDRAND not supported on this CPU/OS")
  /\ outcome_of (generate CryptoAPI 1 100) (windows_host 1)
     <> Raise (OSError "CryptGenRandom is Windows‑only").
Proof.
  destruct (probe_agrees_with_gate RDRAND linux_host initial_state 1 100) as [Hc _].
  destruct (probe_agrees_with_gate CryptoAPI (windows_host 1) initial_state 1 100)
    as [_ Ho].
  split.
  - apply Hc. reflexivity.
  - apply Ho; [reflexivity | discriminate].
Defined.

(** ** Error codes survive the formatting *)

Lemma hex_value_digit (d : Z) : 0 <= d < 16 -> hex_value (hex_digit d) = d.
Proof.
  intros Hd.
  assert (H : d = 0 \/ d = 1 \/ d = 2 \/ d = 3 \/ d = 4 \/ d = 5 \/ d = 6 \/ d = 7
              \/ d = 8 \/ d = 9 \/ d = 10 \/ d = 11 \/ d = 12 \/ d = 13 \/ d = 14
              \/ d = 15) by lia.
  repeat (destruct H as [-> | H]; [reflexivity |]). subst. reflexivity.
Qed.

Lemma hex_digit_not_dash (d : Z) (rest : string) :
  starts_with_dash (String (hex_digit d) rest) = false.
Proof.
  destruct d as [| p | p]; [reflexivity | | reflexivity].
  repeat match goal with
         | |- _ => reflexivity
         | q : positive |- _ => destruct q
         end.
Qed.

Lemma hex_digits_decode :
  forall (fuel : nat) (n : Z) (acc : string),
    0 <= n < 16 ^ Z.of_nat fuel ->
    hex_decode 0 (hex_digits fuel n acc) = hex_decode n acc.
Proof.
  induction fuel as [| fuel IH]; intros n acc Hn.
  - cbn in Hn. assert (n = 0) by lia. subst. reflexivity.
  - cbn [hex_digits].
    assert (Hmod : 0 <= n mod 16 < 16) by (apply Z.mod_pos_bound; lia).
    pose proof (Z.div_mod n 16 ltac:(lia)) as Hdm.
    destruct (n / 16 =? 0) eqn:E.
    + apply Z.eqb_eq in E. cbn [hex_decode].
      rewrite hex_value_digit by exact Hmod. f_equal. lia.
    + apply Z.eqb_neq in E.
      rewrite IH.
      * cbn [hex_decode]. rewrite hex_value_digit by exact Hmod. f_equal. lia.
      * rewrite Nat2Z.inj_succ, Z.pow_succ_r in Hn by lia.
        split; [apply Z.div_pos; lia |].
        apply Z.div_lt_upper_bound; lia.
Qed.

Lemma hex_digits_not_dash :
  forall (fuel : nat) (n d : Z) (acc : string),
    starts_with_dash (hex_digits fuel n (String (hex_digit d) acc)) = false.
Proof.
  induction fuel as [| fuel IH]; intros n d acc.
  - apply hex_digit_not_dash.
  - cbn [hex_digits]. destruct (n / 16 =? 0).
    + apply hex_digit_not_dash.
    + apply IH.
Qed.

Lemma hex_upper_fuel (n : Z) :
  0 <= n -> 0 <= n < 16 ^ Z.of_nat (S (Z.to_nat (Z.log2 n))).
Proof.
  intros Hn. split; [exact Hn |].
  rewrite Nat2Z.inj_succ, Z2Nat.id by apply Z.log2_nonneg.
  destruct (Z.eq_dec n 0) as [-> | Hne].
  - cbn. lia.
  - assert (Hlog : n < 2 ^ Z.succ (Z.log2 n)) by (apply Z.log2_spec; lia).
    assert (Hpow : 2 ^ Z.succ (Z.log2 n) <= 16 ^ Z.succ (Z.log2 n)).
    { apply Z.pow_le_mono_l. lia. }
    lia.
Qed.

Lemma hex_upper_decode (n : Z) : 0 <= n -> hex_decode 0 (hex_upper n) = n.
Proof.
  intros Hn. unfold hex_upper.
  rewrite hex_digits_decode by now apply hex_upper_fuel. reflexivity.
Qed.

Lemma hex_upper_not_dash (n : Z) : starts_with_dash (hex_upper n) = false.
Proof.
  unfold hex_upper. cbn [hex_digits].
  destruct (n / 16 =? 0).
  - apply hex_digit_not_dash.
  - apply hex_digits_not_dash.
Qed.

Lemma zeros_decode (k : nat) (s : string) :
  hex_decode 0 (zeros k ++ s) = hex_decode 0 s.
Proof. induction k as [| k IH]; [reflexivity | exact IH]. Qed.

Lemma zfill_not_dash (width : nat) (s : string) :
  starts_with_dash s = false -> starts_with_dash (zfill width s) = false.
Proof.
  intros Hs. unfold zfill.
  destruct (width - String.length s)%nat; [exact Hs | reflexivity].
Qed.

Lemma parse_no_dash (s : string) :
  starts_with_dash s = false -> parse_08X s = hex_decode 0 s.
Proof.
  destruct s as [| c rest]; [reflexivity |].
  unfold starts_with_dash, parse_08X.
  destruct c as [[] [] [] [] [] [] [] []]; try reflexivity; discriminate.
Qed.

Lemma parse_format_08X (n : Z) : parse_08X (format_08X n) = n.
Proof.
  unfold format_08X. destruct (n <? 0) eqn:E.
  - apply Z.ltb_lt in E. cbn [append parse_08X].
    unfold zfill. rewrite zeros_decode, hex_upper_decode by lia. lia.
  - apply Z.ltb_ge in E.
    rewrite parse_no_dash by (apply zfill_not_dash, hex_upper_not_dash).
    unfold zfill. rewrite zeros_decode. now apply hex_upper_decode.
Qed.

Lemma format_08X_injective (a b : Z) : format_08X a = format_08X b -> a = b.
Proof.
  intros H. rewrite <- (parse_format_08X a), <- (parse_format_08X b).
  now rewrite H.
Qed.

Lemma string_length_append (s t : string) :
  String.length (s ++ t) = (String.length s + String.length t)%nat.
Proof. induction s as [| c s IH]; [reflexivity | cbn; now rewrite IH]. Qed.

Lemma append_inv_tail (t : string) :
  forall s s' : string, (s ++ t = s' ++ t)%string -> s = s'.
Proof.
  induction s as [| c s IH]; intros [| c' s'] H.
  - reflexivity.
  - apply (f_equal String.length) in H. cbn in H.
    rewrite string_length_append in H. lia.
  - apply (f_equal String.length) in H. cbn in H.
    rewrite string_length_append in H. lia.
  - cbn in H. inversion H. f_equal. now apply IH.
Qed.

(** X5. The OSError text of [crypto_api] identifies the failure: two
    failed context acquisitions (or two failed CryptGenRandom calls) give
    the same exception only if GetLastError returned the same code, and
    an acquisition failure is never confused with a CryptGenRandom
    failure. *)
Theorem crypto_api_error_names_code (h1 h2 : Host) (lo hi : Z) :
  windows h1 = true ->
  windows h2 = true ->
  lo < hi ->
  (CryptAcquireContextW_ret h1 = 0 ->
   CryptAcquireContextW_ret h2 = 0 ->
   outcome_of (crypto_api lo hi) h1 = outcome_of (crypto_api lo hi) h2 ->
   GetLastError_ret h1 = GetLastError_ret h2)
  /\ (CryptAcquireContextW_ret h1 <> 0 ->
      CryptAcquireContextW_ret h2 <> 0 ->
      CryptGenRandom_ret h1 = 0 ->
      CryptGenRandom_ret h2 = 0 ->
      outcome_of (crypto_api lo hi) h1 = outcome_of (crypto_api lo hi) h2 ->
      GetLastError_ret h1 = GetLastError_ret h2)
  /\ (CryptAcquireContextW_ret h1 = 0 ->
      CryptAcquireContextW_ret h2 <> 0 ->
      outcome_of (crypto_api lo hi) h1 <> outcome_of (crypto_api lo hi) h2).
Proof.
  intros Hw1 Hw2 Hlt.
  change (crypto_api lo hi) with (generate CryptoAPI lo hi).
  rewrite !outcome_of_table. cbn [table].
  rewrite (crypto_api_table_windows h1 lo hi Hw1 Hlt).
  rewrite (crypto_api_table_windows h2 lo hi Hw2 Hlt).
  repeat split.
  - intros Ha1 Ha2. rewrite Ha1, Ha2. cbn [Z.eqb fst]. intros H.
    inversion H as [Hmsg].
    apply append_inv_tail in Hmsg. now apply format_08X_injective.
  - intros Ha1 Ha2 Hg1 Hg2.
    apply Z.eqb_neq in Ha1, Ha2. rewrite Ha1, Ha2, Hg1, Hg2. cbn [Z.eqb fst].
    intros H. inversion H as [Hmsg].
    apply append_inv_tail in Hmsg. now apply format_08X_injective.
  - intros Ha1 Ha2. apply Z.eqb_neq in Ha2. rewrite Ha1, Ha2. cbn [Z.eqb fst].
    destruct (CryptGenRandom_ret h2 =? 0); cbn; discriminate.
Qed.

Lemma crypto_api_error_names_code_witness :
  outcome_of (crypto_api 1 100) (with_acquire_failure 5 (windows_host 1))
  = Raise (OSError "CryptAcquireContextW failed (0x00000005)")
  /\ outcome_of (crypto_api 1 100) (with_acquire_failure 5 (windows_host 1))
     <> outcome_of (crypto_api 1 100) (with_genrandom_failure 5 (windows_host 1)).
Proof.
  split; [reflexivity |].
  assert (Hw1 : windows (with_acquire_failure 5 (windows_host 1)) = true)
    by reflexivity.
  assert (Hw2 : windows (with_genrandom_failure 5 (windows_host 1)) = true)
    by reflexivity.
  assert (Hlt : 1 < 100) by lia.
  destruct (crypto_api_error_names_code _ _ 1 100 Hw1 Hw2 Hlt) as [_ [_ Hdiff]].
  apply Hdiff; [reflexivity | cbn; lia].
Defined.

(** ** Provider contexts and executable memory, on every host *)

(** X6. In every call of [crypto_api], whatever the host and the
    arguments: the provider context is acquired at most once; every
    CryptGenRandom call is matched by exactly one CryptReleaseContext
    call and nothing else is released; CryptGenRandom and
    CryptReleaseContext are only ever called after a successful
    acquisition and on the handle it stored, CryptGenRandom for 8 bytes. *)
Theorem crypto_api_context_discipline (h : Host) (lo hi : Z) :
  let tr := trace_of (crypto_api lo hi) h in
  (count is_acquire tr <= 1)%nat
  /\ count is_release tr = count is_genrandom tr
  /\ (count is_genrandom tr <= count is_acquire tr)%nat
  /\ (forall hprov len,
         In (Ev_CryptGenRandom hprov len) tr ->
         hprov = CryptAcquireContextW_handle h /\ len = 8
         /\ CryptAcquireContextW_ret h <> 0)
  /\ (forall hprov flags,
         In (Ev_CryptReleaseContext hprov flags) tr ->
         hprov = CryptAcquireContextW_handle h /\ flags = 0
         /\ CryptAcquireContextW_ret h <> 0).
Proof.
  intros tr. subst tr.
  change (crypto_api lo hi) with (generate CryptoAPI lo hi).
  rewrite trace_of_table. cbn [table]. unfold crypto_api_table.
  destruct (negb (windows h)); [| destruct (lo >=? hi);
    [| destruct (CryptAcquireContextW_ret h =? 0) eqn:Ea;
       [| apply Z.eqb_neq in Ea; destruct (CryptGenRandom_ret h =? 0)]]];
    unfold count; cbn;
    (repeat split; try lia;
     repeat match goal with
            | Hin : _ \/ _ |- _ => destruct Hin as [Hin | Hin]
            | Hin : False |- _ => contradiction
            | Heq : _ = _ :> Event |- _ =>
                first [discriminate Heq | inversion Heq; subst; clear Heq]
            end;
     try reflexivity; try assumption).
Qed.



(** ** The Tk front end of random_number_2025.py *)


Lemma generate_invalid_range (b : Backend) (h : Host) (lo hi : Z) :
  lo >= hi ->
  outcome_of (generate b lo hi) h
  = Raise (if probe_value b h then ValueError "min must be < max"
           else OSError (unsupported_message b))
  /\ count is_acquisition (trace_of (generate b lo hi) h) = 0%nat.
Proof.
  intros Hge.
  rewrite outcome_of_table, trace_of_table.
  assert (Hr : (lo >=? hi) = true) by (apply Z.geb_le; lia).
  destruct b; cbn [table probe_value unsupported_message].
  - unfold entropy_pool_table. rewrite Hr. split; reflexivity.
  - unfold crypto_api_table. destruct (windows h); cbn [negb].
    + rewrite Hr. split; reflexivity.
    + split; reflexivity.
  - unfold rdrand_table, rdrand_probe_trace, rdrand_supported.
    destruct (windows h); cbn [andb negb].
    + destruct (IsProcessorFeaturePresent h _PF_RDRAND_AVAILABLE =? 0); cbn [negb].
      * split; reflexivity.
      * rewrite Hr. split; reflexivity.
    + split; reflexivity.
Qed.

(** X10. The worker of [_run], for any generator function and any content
    of the two entries: when it ends the button is enabled again; it ends
    either with "Result: <value>" and no new dialog or log record, or with
    "Error", exactly one new error dialog and one log record; and when an
    entry does not hold a number, the generator is not called at all and
    the dialog shows the TclError text. *)
Theorem work_settles_widgets (func : Z -> Z -> M Z) (min_var max_var : IntVar)
    (h : Host) (s : State) (w : Widgets) :
  let r := GUI.work func min_var max_var h s w in
  button_disabled (snd r) = false
  /\ ((exists v, result (snd r) = ("Result: " ++ format_int v)%string
                 /\ errors_shown (snd r) = errors_shown w
                 /\ logged (snd r) = logged w)
      \/ (exists text, result (snd r) = "Error"
                       /\ errors_shown (snd r) = errors_shown w ++ [text]
                       /\ logged (snd r) = logged w ++ ["Generator failed"]))
  /\ (forall m,
         min_var = IntVar_TclError m
         \/ (exists lo, min_var = IntVar_value lo) /\ max_var = IntVar_TclError m ->
         fst r = s /\ errors_shown (snd r) = errors_shown w ++ [m]).
Proof.
  intros r. subst r. unfold GUI.work.
  destruct min_var as [lo | m1].
  - destruct max_var as [hi | m2].
    + destruct (func lo hi h s) as [[val | e] s1]; cbn.
      * split; [reflexivity |]. split; [left; eexists; repeat split |].
        intros m [Hm | [_ Hm]]; discriminate.
      * split; [reflexivity |]. split; [right; eexists; repeat split |].
        intros m [Hm | [_ Hm]]; discriminate.
    + cbn. split; [reflexivity |]. split; [right; eexists; repeat split |].
      intros m [Hm | [_ Hm]]; [discriminate |]. inversion Hm. split; reflexivity.
  - cbn. split; [reflexivity |]. split; [right; eexists; repeat split |].
    intros m [Hm | [[lo Hlo] _]]; [| discriminate]. inversion Hm. split; reflexivity.
Qed.



Lemma build_run (h : Host) :
  GUI._build h initial_state
  = (Return [GUI._make_panel "Entropy pool" EntropyPool true;
             GUI._make_panel "Windows CryptoAPI" CryptoAPI (windows h);
             GUI._make_panel "Intel/AMD RDRAND" RDRAND (rdrand_supported h)],
     {| trace := Ev_platform_system :: rdrand_probe_trace h; result_cell := 0 |}).
Proof.
  unfold GUI._build, supports_entropy, bind, ret.
  rewrite supports_crypto_api_run. rewrite supports_rdrand_run. reflexivity.
Qed.

(** X12. [_build] makes three panels, for the entropy pool, the
    CryptoAPI and RDRAND in this order, asking the host only read-only
    questions.  Each panel has a non-empty description; its button reads
    "Generate" and is enabled exactly when the capability test of its
    back-end answered True, and reads "Unavailable" otherwise.  A disabled
    button stands for a back-end that would raise its "not supported"
    OSError for every input; an enabled one for a back-end whose range
    check is reached. *)
Theorem build_panels (h : Host) :
  exists ps,
    outcome_of GUI._build h = Return ps
    /\ map GUI.panel_func ps = [EntropyPool; CryptoAPI; RDRAND]
    /\ forallb is_query (trace_of GUI._build h) = true
    /\ forall p, In p ps ->
         GUI.panel_description p <> EmptyString
         /\ GUI.button_text p
            = (if GUI.button_normal p then "Generate" else "Unavailable")
         /\ fst (is_supported (GUI.panel_func p) h initial_state)
            = Return (GUI.button_normal p)
         /\ (GUI.button_normal p = false ->
             forall lo hi,
               outcome_of (generate (GUI.panel_func p) lo hi) h
               = Raise (OSError (unsupported_message (GUI.panel_func p))))
         /\ (GUI.button_normal p = true ->
             forall lo hi, lo >= hi ->
               outcome_of (generate (GUI.panel_func p) lo hi) h
               = Raise (ValueError "min must be < max")).
Proof.
  assert (Ho : outcome_of GUI._build h = fst (GUI._build h initial_state))
    by reflexivity.
  assert (Ht : trace_of GUI._build h = trace (snd (GUI._build h initial_state)))
    by reflexivity.
  rewrite build_run in Ho, Ht. cbn [fst snd trace] in Ho, Ht.
  eexists. rewrite Ht.
  split; [exact Ho |]. split; [reflexivity |]. split.
  - unfold rdrand_probe_trace. destruct (windows h); reflexivity.
  - intros p Hp.
    assert (Hcase : exists b on, p = GUI._make_panel (GUI.panel_title p) b on
                                 /\ GUI.panel_description p <> EmptyString
                                 /\ probe_value b h = on).
    { destruct Hp as [<- | [<- | [<- | []]]]; eexists; eexists;
        (split; [reflexivity |]); (split; [discriminate | reflexivity]). }
    destruct Hcase as [b [on [Hpanel [Hdesc Hprobe]]]].
    rewrite Hpanel. cbn [GUI._make_panel GUI.panel_description GUI.button_text
      GUI.button_normal GUI.panel_func].
    split; [rewrite Hpanel in Hdesc; exact Hdesc |].
    split; [reflexivity |].
    split; [rewrite is_supported_value; now rewrite Hprobe |].
    split.
    + intros Hoff lo hi. subst on. now apply gate_closed.
    + intros Hon lo hi Hge. subst on.
      rewrite (proj1 (generate_invalid_range b h lo hi Hge)). now rewrite Hon.
Qed.

(** ** More on the archived generators *)

(** X13. The archived CryptoAPI method of the GUI class never returns
    an integer: on every host and for all arguments it either raises or
    returns None, and it returns None exactly on the path where the
    context was acquired and CryptGenRandom succeeded. *)
Theorem archive_gui_crypto_outcomes (h : Host) (lo hi : Z) :
  let g := Archive.RandomNumberGeneratorGUI.generate_crypto_hardware_random lo hi in
  ((exists e, outcome_of g h = Raise e) \/ outcome_of g h = Return PyNone)
  /\ (outcome_of g h = Return PyNone <->
      windows h = true /\ CryptAcquireContextW_ret h <> 0
      /\ CryptGenRandom_ret h <> 0).
Proof.
  intros g. subst g.
  unfold outcome_of, run,
    Archive.RandomNumberGeneratorGUI.generate_crypto_hardware_random,
    Archive.ctypes_windll, advapi32_CryptAcquireContextW, advapi32_CryptGenRandom,
    advapi32_CryptReleaseContext, kernel32_GetLastError, bind, emit, ask, raise, ret,
    windows.
  destruct (platform_system h =? "Windows")%string; cbn.
  - destruct (CryptAcquireContextW_ret h =? 0) eqn:Ea; cbn.
    + apply Z.eqb_eq in Ea. split; [left; eexists; reflexivity |].
      split; [discriminate | intros [_ [Hne _]]; contradiction].
    + apply Z.eqb_neq in Ea.
      destruct (CryptGenRandom_ret h =? 0) eqn:Eg; cbn.
      * apply Z.eqb_eq in Eg. split; [left; eexists; reflexivity |].
        split; [discriminate | intros [_ [_ Hne]]; contradiction].
      * apply Z.eqb_neq in Eg. split; [right; reflexivity |].
        split; [intros _; repeat split; assumption | reflexivity].
  - split; [left; eexists; reflexivity |].
    split; [discriminate | intros [Hw _]; discriminate].
Qed.


Lemma archive_amd_fallback_witness :
  In (Ev_CryptGenRandom 0 8)
     (trace_of (Archive.RandomNumberGeneratorGUI.generate_amd_hardware_random 1 100)
               (with_alloc_failure (windows_host 1)))
  /\ exists v,
       outcome_of (Archive.RandomNumberGeneratorGUI.generate_amd_hardware_random 1 100)
                  (with_alloc_failure (windows_host 1)) = Return (PyInt v)
       /\ 1 <= v <= 100.
Proof.
  apply (archive_amd_fallback (with_alloc_failure (windows_host 1)) 1 100).
  - reflexivity.
  - lia.
  - left. reflexivity.
Defined.

(** X16. Off Windows the archived AMD method meets the missing
    ctypes.windll three times: the first two AttributeErrors are only
    logged, the third one, from the second RDRAND block, reaches the
    caller; nothing else is called. *)
Theorem archive_amd_without_windll (h : Host) (lo hi : Z) :
  windows h = false ->
  observe (Archive.RandomNumberGeneratorGUI.generate_amd_hardware_random lo hi) h
  = (Raise (AttributeError "module 'ctypes' has no attribute 'windll'"),
     [Ev_logger_error
        "Failed to generate random number using AMD RDRAND: module 'ctypes' has no attribute 'windll'";
      Ev_logger_error
        "Failed to generate random number using AMD CryptGenRandom: module 'ctypes' has no attribute 'windll'"]).
Proof.
  unfold windows. intros Hw.
  unfold observe, outcome_of, trace_of, run,
    Archive.RandomNumberGeneratorGUI.generate_amd_hardware_random,
    Archive.RandomNumberGeneratorGUI.amd_rdrand_block,
    Archive.RandomNumberGeneratorGUI.amd_cryptgenrandom_block,
    Archive.RandomNumberGeneratorGUI.get_rdrand64u,
    Archive.RandomNumberGeneratorGUI.setup_asm_function,
    Archive.ctypes_windll, Archive.logger_error.
  unfold try_except, new_result, bind, emit, raise, ret.
  cbn. rewrite Hw. cbn. rewrite Hw. cbn. rewrite Hw. reflexivity.
Qed.

Lemma archive_amd_without_windll_witness :
  observe (Archive.RandomNumberGeneratorGUI.generate_amd_hardware_random 1 100)
          linux_host
  = (Raise (AttributeError "module 'ctypes' has no attribute 'windll'"),
     [Ev_logger_error
        "Failed to generate random number using AMD RDRAND: module 'ctypes' has no attribute 'windll'";
      Ev_logger_error
        "Failed to generate random number using AMD CryptGenRandom: module 'ctypes' has no attribute 'windll'"]).
Proof.
  apply (archive_amd_without_windll linux_host 1 100). reflexivity.
Defined.

(** X17. On Windows, when the executable memory is obtained and the AMD
    stub answers SECRNG_SUCCESS at its first run, the archived AMD method
    returns min_value plus the content of rng64 reduced modulo the width,
    where rng64 holds what the stub stored through its pointer and is
    still 0 if it stored nothing; the stub has run once and
    CryptGenRandom is not called. *)
Theorem archive_amd_hardware_path (h : Host) (lo hi : Z) :
  windows h = true ->
  lo < hi ->
  VirtualAlloc_ret h <> 0 ->
  fst (amd_stub h 0) = Archive.SECRNG_SUCCESS ->
  let g := Archive.RandomNumberGeneratorGUI.generate_amd_hardware_random lo hi in
  outcome_of g h
  = Return (PyInt (lo + match snd (amd_stub h 0) with
                        | Some v => v mod 2 ^ 64
                        | None => 0
                        end mod (hi - lo + 1)))
  /\ count Archive.is_amd_stub (trace_of g h) = 1%nat
  /\ count is_genrandom (trace_of g h) = 0%nat.
Proof.
  intros Hw Hlt Ha Hstub g. subst g. unfold windows in Hw.
  unfold outcome_of, trace_of, run,
    Archive.RandomNumberGeneratorGUI.generate_amd_hardware_random,
    Archive.RandomNumberGeneratorGUI.amd_rdrand_block,
    Archive.RandomNumberGeneratorGUI.get_rdrand64u,
    Archive.RandomNumberGeneratorGUI.setup_asm_function,
    Archive.call_amd_stub, Archive.ctypes_windll, Archive.scale,
    Archive.SECRNG_SUCCESS in *.
  unfold try_except, new_result, result_value, kernel32_VirtualAlloc,
    ctypes_memmove, bind, lift, emit, ask, raise, ret.
  rewrite Hw. cbn.
  apply Z.eqb_neq in Ha. rewrite Ha. cbn.
  rewrite Z.eqb_refl. cbn.
  destruct (amd_stub h 0) as [r stored]. cbn in Hstub. subst r. cbn.
  assert (Hmod : forall x, py_mod x (hi - lo + 1) = Return (x mod (hi - lo + 1))).
  { intros x. unfold py_mod.
    destruct (hi - lo + 1 =? 0) eqn:E; [apply Z.eqb_eq in E; lia | reflexivity]. }
  rewrite Hmod. cbn. destruct stored; repeat split.
Qed.

Lemma archive_amd_hardware_path_witness :
  outcome_of (Archive.RandomNumberGeneratorGUI.generate_amd_hardware_random 1 100)
             (with_amd_stub (fun _ => (0, None)) (windows_host 1))
  = Return (PyInt 1).
Proof.
  assert (Hw : windows (with_amd_stub (fun _ => (0, None)) (windows_host 1)) = true)
    by reflexivity.
  assert (Hlt : 1 < 100) by lia.
  assert (Ha : VirtualAlloc_ret (with_amd_stub (fun _ => (0, None)) (windows_host 1))
               <> 0) by (cbn; lia).
  exact (proj1 (archive_amd_hardware_path _ 1 100 Hw Hlt Ha eq_refl)).
Defined.

(** ** The archived front end *)

(** X18. [task] of generate_wrapper, with integers in both entries and
    any generator: the button is enabled again when it ends; for
    min >= max the generator is never called, the text is "Error
    occurred" and the dialog says "Min value must be less than Max
    value"; for min < max the generator is called once with (min, max),
    a returned value is shown as "Result: " followed by the value (the
    word None for None) with no dialog, and a raised exception gives
    "Error occurred" with the exception text in the dialog. *)
Theorem task_validates_then_calls (generate_func : Z -> Z -> M pyval)
    (min_val max_val : Z) (h : Host) (s : State) (w : Widgets) :
  let r := ArchiveRest.task generate_func (IntVar_value min_val)
                            (IntVar_value max_val) h s w in
  button_disabled (snd r) = false
  /\ (min_val >= max_val ->
      fst r = s
      /\ result (snd r) = "Error occurred"
      /\ errors_shown (snd r)
         = errors_shown w ++ ["Min value must be less than Max value"])
  /\ (min_val < max_val ->
      fst r = snd (generate_func min_val max_val h s)
      /\ match fst (generate_func min_val max_val h s) with
         | Return v =>
             result (snd r) = ("Result: " ++ ArchiveRest.format_result v)%string
             /\ errors_shown (snd r) = errors_shown w
         | Raise e =>
             result (snd r) = "Error occurred"
             /\ errors_shown (snd r) = errors_shown w ++ [exn_str e]
         end).
Proof.
  intros r. subst r. unfold ArchiveRest.task.
  destruct (min_val >=? max_val) eqn:E.
  - apply Z.geb_le in E. cbn. split; [reflexivity |]. split.
    + intros _. repeat split.
    + intros Hlt. lia.
  - rewrite Z.geb_leb in E. apply Z.leb_gt in E.
    destruct (generate_func min_val max_val h s) as [[v | e] s1]; cbn;
      (split; [reflexivity |]); (split; [intros Hge; lia |]);
      intros _; repeat split.
Qed.

Lemma task_validates_then_calls_witness :
  result (snd (ArchiveRest.task
                 Archive.RandomNumberGeneratorGUI.generate_amd_hardware_random
                 (IntVar_value 100) (IntVar_value 1)
                 (windows_host 1) initial_state blank_widgets))
  = "Error occurred"
  /\ fst (ArchiveRest.task
            Archive.RandomNumberGeneratorGUI.generate_amd_hardware_random
            (IntVar_value 100) (IntVar_value 1)
            (windows_host 1) initial_state blank_widgets)
     = initial_state.
Proof.
  destruct (task_validates_then_calls
              Archive.RandomNumberGeneratorGUI.generate_amd_hardware_random
              100 1 (windows_host 1) initial_state blank_widgets)
    as [_ [Hinvalid _]].
  assert (Hge : 100 >= 1) by lia.
  destruct (Hinvalid Hge) as [Hs [Hr _]].
  split; assumption.
Defined.

(** X19. Bound to a button through [task], the archived CryptoAPI
    method of the GUI class shows the text "Result: None" without any
    error dialog on every Windows host where it acquires the context and
    CryptGenRandom succeeds, whatever valid range was entered. *)
Theorem task_shows_None_for_crypto (h : Host) (min_val max_val : Z) (w : Widgets) :
  windows h = true ->
  CryptAcquireContextW_ret h <> 0 ->
  CryptGenRandom_ret h <> 0 ->
  min_val < max_val ->
  let r := ArchiveRest.task
             Archive.RandomNumberGeneratorGUI.generate_crypto_hardware_random
             (IntVar_value min_val) (IntVar_value max_val) h initial_state w in
  result (snd r) = "Result: None"
  /\ errors_shown (snd r) = errors_shown w
  /\ button_disabled (snd r) = false.
Proof.
  intros Hw Ha Hg Hlt r. subst r. unfold windows in Hw.
  unfold ArchiveRest.task.
  destruct (min_val >=? max_val) eqn:E; [apply Z.geb_le in E; lia |].
  unfold Archive.RandomNumberGeneratorGUI.generate_crypto_hardware_random,
    Archive.ctypes_windll, advapi32_CryptAcquireContextW, advapi32_CryptGenRandom,
    advapi32_CryptReleaseContext, kernel32_GetLastError, bind, emit, ask, raise, ret.
  apply Z.eqb_neq in Ha, Hg. rewrite Hw. cbn. rewrite Ha. cbn. rewrite Hg. cbn.
  repeat split.
Qed.

Lemma task_shows_None_for_crypto_witness :
  result (snd (ArchiveRest.task
                 Archive.RandomNumberGeneratorGUI.generate_crypto_hardware_random
                 (IntVar_value 1) (IntVar_value 100)
                 (windows_host 1) initial_state blank_widgets))
  = "Result: None".
Proof.
  assert (Hw : windows (windows_host 1) = true) by reflexivity.
  assert (Ha : CryptAcquireContextW_ret (windows_host 1) <> 0) by (cbn; lia).
  assert (Hg : CryptGenRandom_ret (windows_host 1) <> 0) by (cbn; lia).
  assert (Hlt : 1 < 100) by lia.
  exact (proj1 (task_shows_None_for_crypto (windows_host 1) 1 100 blank_widgets
                  Hw Ha Hg Hlt)).
Defined.

Lemma archive_entropy_pool_run (h : Host) (s : State) (lo hi : Z) :
  ArchiveRest.generate_entropy_pool_random lo hi h s
  = (match urandom_error h with
     | Some e => Raise e
     | None =>
         if hi - lo + 1 =? 0 then Raise (ZeroDivisionError "integer modulo by zero")
         else Return (lo + urandom_u64 h mod (hi - lo + 1))
     end,
     {| trace := trace s ++ [Ev_urandom 8]; result_cell := result_cell s |}).
Proof.
  unfold ArchiveRest.generate_entropy_pool_random, Archive.scale, os_urandom,
    struct_unpack_Q, py_mod, bind, lift, emit, ask, raise, ret.
  cbn. destruct (urandom_error h) as [e |]; [reflexivity |]. cbn.
  destruct (hi - lo + 1 =? 0); reflexivity.
Qed.

(** X20. The archived generate_entropy_pool_random checks nothing
    itself: called with max_value = min_value - 1 it reads 8 bytes and
    then raises ZeroDivisionError, and with max_value = min_value it
    returns min_value.  Behind [task] neither happens: for every pair of
    integers entered it is called only with min < max, and when
    os.urandom delivers the text shown is "Result: " followed by an
    integer of [min, max]. *)
Theorem archive_entropy_pool_behind_task (h : Host) (lo hi : Z) (w : Widgets) :
  urandom_error h = None ->
  (hi = lo - 1 ->
   outcome_of (ArchiveRest.generate_entropy_pool_random lo hi) h
   = Raise (ZeroDivisionError "integer modulo by zero")
   /\ trace_of (ArchiveRest.generate_entropy_pool_random lo hi) h = [Ev_urandom 8])
  /\ (hi = lo ->
      outcome_of (ArchiveRest.generate_entropy_pool_random lo hi) h = Return lo)
  /\ (let r := ArchiveRest.task
                 (fun a b => v <- ArchiveRest.generate_entropy_pool_random a b ;;
                             ret (PyInt v))
                 (IntVar_value lo) (IntVar_value hi) h initial_state w in
      (lo < hi ->
       exists v, lo <= v <= hi
                 /\ result (snd r) = ("Result: " ++ format_int v)%string
                 /\ errors_shown (snd r) = errors_shown w)
      /\ (lo >= hi ->
          trace (fst r) = []
          /\ errors_shown (snd r)
             = errors_shown w ++ ["Min value must be less than Max value"])).
Proof.
  intros Hu. unfold outcome_of, trace_of, run.
  rewrite !archive_entropy_pool_run, Hu. cbn [fst snd trace initial_state app].
  split; [| split].
  - intros ->. replace (lo - 1 - lo + 1) with 0 by lia. split; reflexivity.
  - intros ->. replace (lo - lo + 1) with 1 by lia. cbn.
    rewrite Z.mod_1_r. f_equal. lia.
  - unfold ArchiveRest.task. split.
    + intros Hlt.
      destruct (lo >=? hi) eqn:E; [apply Z.geb_le in E; lia |].
      unfold bind. rewrite archive_entropy_pool_run, Hu.
      destruct (hi - lo + 1 =? 0) eqn:E0; [apply Z.eqb_eq in E0; lia |].
      cbn. eexists. split; [now apply map_bounds |]. split; reflexivity.
    + intros Hge.
      destruct (lo >=? hi) eqn:E; [| rewrite Z.geb_leb in E; apply Z.leb_gt in E; lia].
      cbn. split; reflexivity.
Qed.

Lemma archive_entropy_pool_behind_task_witness :
  outcome_of (ArchiveRest.generate_entropy_pool_random 5 4) linux_host
  = Raise (ZeroDivisionError "integer modulo by zero")
  /\ outcome_of (ArchiveRest.generate_entropy_pool_random 5 5) linux_host = Return 5.
Proof.
  destruct (archive_entropy_pool_behind_task linux_host 5 4 blank_widgets eq_refl)
    as [Hzero _].
  destruct (archive_entropy_pool_behind_task linux_host 5 5 blank_widgets eq_refl)
    as [_ [Hone _]].
  split; [apply Hzero; reflexivity | apply Hone; reflexivity].
Defined.

(** X21. What create_widgets wires up: the four frames are bound, in
    order, to the entropy-pool, Intel, entropy-pool and AMD methods.  The
    frame titled "CryptGenRandom win32crypt Generator" carries the
    CryptGenRandom description but draws from os.urandom, and no frame is
    bound to generate_crypto_hardware_random; in general that method is
    bound only to a title that contains "Operating" and not "Intel". *)
Theorem create_widgets_wiring :
  map ArchiveRest.frame_func ArchiveRest.create_widgets
  = [ArchiveRest.generate_entropy_pool; ArchiveRest.generate_intel_hardware;
     ArchiveRest.generate_entropy_pool; ArchiveRest.generate_amd_hardware]
  /\ map ArchiveRest.frame_description ArchiveRest.create_widgets
     = [ArchiveRest.description_of "Entropy"; ArchiveRest.description_of "Intel";
        ArchiveRest.description_of "Crypt"; ArchiveRest.description_of "AMD"]
  /\ (forall title,
         ArchiveRest.generate_func_of title = ArchiveRest.generate_crypto_hardware <->
         ArchiveRest.contains "Operating" title = true
         /\ ArchiveRest.contains "Intel" title = false).
Proof.
  split; [reflexivity |]. split; [reflexivity |].
  intros title. unfold ArchiveRest.generate_func_of.
  destruct (ArchiveRest.contains "Intel" title);
    destruct (ArchiveRest.contains "Operating" title);
    destruct (ArchiveRest.contains "AMD" title);
    split; try discriminate; try reflexivity;
    try (intros [H1 H2]; discriminate); intros _; split; reflexivity.
Qed.

(** ** The archived Intel generator *)

(** X22. In the core class the Intel method can only raise: off
    Windows the OSError of its platform test, on Windows a RuntimeError,
    because the class has no setup_asm_function and the AttributeError of
    the look-up is re-raised as a set-up failure.  No memory is allocated
    and no stub is run, whatever the stub would do. *)
Theorem archive_core_intel_only_raises (stub : nat -> bool * option Z)
    (h : Host) (lo hi : Z) :
  observe (ArchiveRest.generate_intel_hardware_random
             stub ArchiveRest.setup_asm_function_missing lo hi) h
  = (Raise (if windows h then
              RuntimeError "Failed to set up Intel RDRAND: 'RandomNumberGenerator' object has no attribute 'setup_asm_function'"
            else OSError "Intel Hardware RNG is only supported on Windows"),
     [Ev_platform_system]).
Proof.
  unfold observe, outcome_of, trace_of, run, windows,
    ArchiveRest.generate_intel_hardware_random,
    ArchiveRest.setup_asm_function_missing, py_platform_system,
    try_except, bind, emit, ask, raise.
  cbn. destruct (platform_system h =? "Windows")%string; reflexivity.
Qed.

(** X23. In the GUI class, on Windows and with a valid range, the Intel
    method allocates once and runs its stub at most once, with no retry:
    a NULL allocation is re-raised as RuntimeError("Failed to set up Intel
    RDRAND: Failed to allocate memory") before any run; a stub answering
    False gives RuntimeError("Intel RDRAND instruction failed") after
    exactly one run; a stub answering True gives min_value plus the cell
    content modulo the width.  No other entropy source is called. *)
Theorem archive_gui_intel_single_attempt (stub : nat -> bool * option Z)
    (h : Host) (lo hi : Z) :
  windows h = true ->
  lo < hi ->
  let g := ArchiveRest.generate_intel_hardware_random
             stub Archive.RandomNumberGeneratorGUI.setup_asm_function lo hi in
  forallb (fun e => negb (is_other_source e)) (trace_of g h) = true
  /\ (VirtualAlloc_ret h = 0 ->
      outcome_of g h
      = Raise (RuntimeError "Failed to set up Intel RDRAND: Failed to allocate memory")
      /\ count is_step (trace_of g h) = 0%nat)
  /\ (VirtualAlloc_ret h <> 0 ->
      count is_step (trace_of g h) = 1%nat
      /\ count is_alloc (trace_of g h) = 1%nat
      /\ (fst (stub 0%nat) = false ->
          outcome_of g h = Raise (RuntimeError "Intel RDRAND instruction failed"))
      /\ (fst (stub 0%nat) = true ->
          outcome_of g h
          = Return (lo + match snd (stub 0%nat) with
                         | Some v => v mod 2 ^ 64
                         | None => 0
                         end mod (hi - lo + 1)))).
Proof.
  intros Hw Hlt g. subst g. unfold windows in Hw.
  unfold outcome_of, trace_of, run,
    ArchiveRest.generate_intel_hardware_random,
    ArchiveRest.call_intel_stub,
    Archive.RandomNumberGeneratorGUI.setup_asm_function,
    Archive.ctypes_windll, Archive.scale, py_platform_system.
  unfold try_except, new_result, result_value, kernel32_VirtualAlloc,
    ctypes_memmove, bind, lift, emit, ask, raise, ret.
  cbn. rewrite Hw. cbn. rewrite Hw. cbn.
  assert (Hmod : forall x, py_mod x (hi - lo + 1) = Return (x mod (hi - lo + 1))).
  { intros x. unfold py_mod.
    destruct (hi - lo + 1 =? 0) eqn:E; [apply Z.eqb_eq in E; lia | reflexivity]. }
  destruct (VirtualAlloc_ret h =? 0) eqn:Ea; cbn.
  - apply Z.eqb_eq in Ea. split; [reflexivity |]. split.
    + intros _. split; reflexivity.
    + intros Hne. contradiction.
  - apply Z.eqb_neq in Ea.
    rewrite Z.eqb_refl. cbn.
    unfold count_steps, count. cbn.
    destruct (stub 0%nat) as [ok stored]. cbn.
    destruct ok; cbn; rewrite ?Hmod; cbn;
      (split; [reflexivity |]); (split; [intros H0; contradiction |]);
      intros _; destruct stored; repeat split; try discriminate.
Qed.

Lemma archive_gui_intel_single_attempt_witness :
  outcome_of (ArchiveRest.generate_intel_hardware_random
                (fun _ => (false, None))
                Archive.RandomNumberGeneratorGUI.setup_asm_function 1 100)
             (windows_host 1)
  = Raise (RuntimeError "Intel RDRAND instruction failed").
Proof.
  assert (Hw : windows (windows_host 1) = true) by reflexivity.
  assert (Hlt : 1 < 100) by lia.
  destruct (archive_gui_intel_single_attempt (fun _ => (false, None))
              (windows_host 1) 1 100 Hw Hlt) as [_ [_ Hrun]].
  assert (Ha : VirtualAlloc_ret (windows_host 1) <> 0) by (cbn; lia).
  destruct (Hrun Ha) as [_ [_ [Hfail _]]].
  apply Hfail. reflexivity.
Defined.

(** ** The headless self-test *)

Lemma entropy_pool_run (h : Host) (s : State) (lo hi : Z) :
  lo < hi ->
  entropy_pool lo hi h s
  = (match urandom_error h with
     | Some e => Raise e
     | None => Return (lo + urandom_u64 h mod (hi - lo + 1))
     end,
     {| trace := trace s ++ [Ev_urandom 8]; result_cell := result_cell s |}).
Proof.
  intros Hlt.
  unfold entropy_pool, _check_range, os_urandom, struct_unpack_Q,
    bind, lift, emit, ask, raise, ret.
  destruct (lo >=? hi) eqn:E; [apply Z.geb_le in E; lia |].
  cbn. destruct (urandom_error h) as [e |]; [reflexivity |]. cbn.
  rewrite (map_returns _ lo hi Hlt). reflexivity.
Qed.

Lemma bind_unfold {A B} (m : M A) (k : A -> M B) (h : Host) (s : State) :
  bind m k h s
  = match m h s with
    | (Return a, s') => k a h s'
    | (Raise e, s') => (Raise e, s')
    end.
Proof. reflexivity. Qed.

Lemma print_run (stdout_error : string -> option exn) (text : string)
    (h : Host) (s : State) :
  Main.print stdout_error text h s
  = match stdout_error text with
    | Some e => (Raise e, s)
    | None =>
        (Return tt,
         {| trace := trace s ++ [Ev_print text]; result_cell := result_cell s |})
    end.
Proof. unfold Main.print. destruct (stdout_error text); reflexivity. Qed.

Lemma report_entropy_run (stdout_error : string -> option exn) (h : Host) (s : State) :
  Main.report stdout_error "Entropy" true h s
  = match urandom_error h with
    | Some e =>
        (Raise e,
         {| trace := trace s ++ [Ev_urandom 8]; result_cell := result_cell s |})
    | None =>
        Main.print stdout_error
          ("Entropy  : " ++ format_int (1 + urandom_u64 h mod (9 - 1 + 1))) h
          {| trace := trace s ++ [Ev_urandom 8]; result_cell := result_cell s |}
    end.
Proof.
  unfold Main.report. cbn [String.eqb Ascii.eqb Bool.eqb andb].
  rewrite !bind_unfold. rewrite (entropy_pool_run h s 1 9) by lia.
  destruct (urandom_error h) as [e |]; reflexivity.
Qed.

Lemma report_other_run (stdout_error : string -> option exn) (name : string)
    (ok : bool) (h : Host) (s : State) :
  (name =? "Entropy")%string = false ->
  Main.report stdout_error name ok h s
  = Main.print stdout_error
      (Main.format_9 name ++ ": " ++ if ok then "✓" else "(unsupported)") h s.
Proof.
  intros Hname. unfold Main.report. rewrite Hname.
  destruct ok; reflexivity.
Qed.

(** The state in which the loop starts: the three capability tests ran. *)
Lemma self_test_run (stdout_error : string -> option exn) (h : Host) :
  Main.self_test stdout_error h initial_state
  = Main.for_each [("Entropy", true); ("CryptoAPI", windows h);
                   ("RDRAND", rdrand_supported h)]
      (Main.report stdout_error) h
      {| trace := Ev_platform_system :: rdrand_probe_trace h; result_cell := 0 |}.
Proof.
  unfold Main.self_test.
  rewrite bind_unfold.
  change (supports_entropy h initial_state) with (@Return bool true, initial_state).
  lazy beta iota.
  rewrite bind_unfold, supports_crypto_api_run. lazy beta iota.
  rewrite bind_unfold, supports_rdrand_run. lazy beta iota.
  reflexivity.
Qed.

(** X24. The self-test run before the GUI starts makes exactly one
    draw, entropy_pool(1, 9), on every host and whatever stdout is.  When
    os.urandom raises, the exception leaves the script before anything is
    printed.  When it delivers, the lines to print are "Entropy  : d" with
    d between 1 and 9, then for CryptoAPI and for RDRAND the tick mark if
    the capability test answered True and "(unsupported)" otherwise: if
    stdout can encode all three the script prints them and goes on; if it
    takes the first and cannot encode the second (the tick on a Windows
    host with a legacy code page), the encoding error leaves the script
    after the first line alone. *)
Theorem self_test_lines (stdout_error : string -> option exn) (h : Host) :
  let t := Main.self_test stdout_error in
  count is_acquisition (trace_of t h) = 1%nat
  /\ (forall e, urandom_error h = Some e ->
         outcome_of t h = Raise e
         /\ filter Main.is_print (trace_of t h) = [])
  /\ (urandom_error h = None ->
      exists d, 1 <= d <= 9
        /\ (let l1 := ("Entropy  : " ++ format_int d)%string in
            let l2 := if windows h then "CryptoAPI: ✓"
                      else "CryptoAPI: (unsupported)" in
            let l3 := if rdrand_supported h then "RDRAND   : ✓"
                      else "RDRAND   : (unsupported)" in
            (stdout_error l1 = None -> stdout_error l2 = None ->
             stdout_error l3 = None ->
             outcome_of t h = Return tt
             /\ filter Main.is_print (trace_of t h)
                = [Ev_print l1; Ev_print l2; Ev_print l3])
            /\ (forall e, stdout_error l1 = None -> stdout_error l2 = Some e ->
                   outcome_of t h = Raise e
                   /\ filter Main.is_print (trace_of t h) = [Ev_print l1]))).
Proof.
  intros t. subst t.
  unfold outcome_of, trace_of, run. rewrite self_test_run.
  assert (Hprobe : count is_acquisition (rdrand_probe_trace h) = 0%nat
                   /\ filter Main.is_print (rdrand_probe_trace h) = []).
  { unfold rdrand_probe_trace. destruct (windows h); split; reflexivity. }
  destruct Hprobe as [Hc Hf]. unfold count in *.
  assert (Hl2 : (Main.format_9 "CryptoAPI" ++ ": "
                 ++ (if windows h then "✓" else "(unsupported)"))%string
                = if windows h then "CryptoAPI: ✓" else "CryptoAPI: (unsupported)")
    by (destruct (windows h); reflexivity).
  assert (Hl3 : (Main.format_9 "RDRAND" ++ ": "
                 ++ (if rdrand_supported h then "✓" else "(unsupported)"))%string
                = if rdrand_supported h then "RDRAND   : ✓"
                  else "RDRAND   : (unsupported)")
    by (destruct (rdrand_supported h); reflexivity).
  cbn [Main.for_each].
  rewrite bind_unfold, report_entropy_run. cbn [trace result_cell].
  destruct (urandom_error h) as [e0 |].
  - cbn [fst snd trace]. split; [| split].
    + cbn [app filter is_acquisition]. rewrite filter_app, length_app, Hc. reflexivity.
    + intros e He. inversion He. subst e0. split; [reflexivity |].
      cbn [app filter Main.is_print]. rewrite filter_app, Hf. reflexivity.
    + discriminate.
  - rewrite print_run.
    set (l1 := ("Entropy  : " ++ format_int (1 + urandom_u64 h mod (9 - 1 + 1)))%string).
    set (l2 := if windows h then "CryptoAPI: ✓" else "CryptoAPI: (unsupported)") in *.
    set (l3 := if rdrand_supported h then "RDRAND   : ✓"
               else "RDRAND   : (unsupported)") in *.
    destruct (stdout_error l1) as [e1 |] eqn:H1.
    { cbn [fst snd trace]. split; [| split].
      - cbn [app filter is_acquisition].
        rewrite filter_app, length_app, Hc. reflexivity.
      - discriminate.
      - intros _. exists (1 + urandom_u64 h mod (9 - 1 + 1)).
        split; [apply map_bounds; lia |].
        cbn zeta. fold l1. rewrite H1. split; [discriminate |].
        intros e He. discriminate. }
    lazy beta iota.
    rewrite bind_unfold, report_other_run by reflexivity.
    rewrite print_run, Hl2.
    destruct (stdout_error l2) as [e2 |] eqn:H2.
    { cbn [fst snd trace]. split; [| split].
      - cbn [app filter is_acquisition].
        rewrite !filter_app, !length_app, Hc. reflexivity.
      - discriminate.
      - intros _. exists (1 + urandom_u64 h mod (9 - 1 + 1)).
        split; [apply map_bounds; lia |].
        cbn zeta. fold l1. split.
        + intros _ He. discriminate.
        + intros e _ He. inversion He. subst e2. split; [reflexivity |].
          cbn [app filter Main.is_print]. rewrite !filter_app, Hf. reflexivity. }
    lazy beta iota.
    rewrite bind_unfold, report_other_run by reflexivity.
    rewrite print_run, Hl3.
    destruct (stdout_error l3) as [e3 |] eqn:H3.
    { cbn [fst snd trace]. split; [| split].
      - cbn [app filter is_acquisition].
        rewrite !filter_app, !length_app, Hc. reflexivity.
      - discriminate.
      - intros _. exists (1 + urandom_u64 h mod (9 - 1 + 1)).
        split; [apply map_bounds; lia |].
        cbn zeta. fold l1. split.
        + intros _ _ He. discriminate.
        + intros e _ He. discriminate. }
    lazy beta iota. cbn [fst snd trace ret]. split; [| split].
    + cbn [app filter is_acquisition].
      rewrite !filter_app, !length_app, Hc. reflexivity.
    + discriminate.
    + intros _. exists (1 + urandom_u64 h mod (9 - 1 + 1)).
      split; [apply map_bounds; lia |].
      cbn zeta. fold l1. split.
      * intros _ _ _. split; [reflexivity |].
        cbn [app filter Main.is_print]. rewrite !filter_app, Hf. reflexivity.
      * intros e _ He. discriminate.
Qed.

Lemma self_test_lines_witness :
  outcome_of (Main.self_test Main.cp1252_stdout) (windows_host 1)
  = Raise (UnicodeEncodeError
             "'charmap' codec can't encode character '\u2713' in position 11: character maps to <undefined>")
  /\ List.length (filter Main.is_print
                    (trace_of (Main.self_test Main.cp1252_stdout) (windows_host 1)))
     = 1%nat.
Proof.
  destruct (self_test_lines Main.cp1252_stdout (windows_host 1)) as [_ [_ Hok]].
  destruct (Hok eq_refl) as [d [Hd [_ Hfail]]].
  assert (Hl1 : Main.cp1252_stdout ("Entropy  : " ++ format_int d) = None).
  { assert (Hcases : d = 1 \/ d = 2 \/ d = 3 \/ d = 4 \/ d = 5 \/ d = 6
                     \/ d = 7 \/ d = 8 \/ d = 9) by lia.
    repeat (destruct Hcases as [-> | Hcases]; [reflexivity |]).
    subst d. reflexivity. }
  destruct (Hfail (UnicodeEncodeError
             "'charmap' codec can't encode character '\u2713' in position 11: character maps to <undefined>")
            Hl1 eq_refl) as [Ho Ht].
  split; [exact Ho |]. rewrite Ht. reflexivity.
Defined.
